(** * export_to_protobuf: pickled name data re-encoded as protobuf messages

    A shallow embedding of [src/data/export_to_protobuf.py].  The script
    loads two gzip-compressed pickles (first names, last names), copies
    every entry into a [NameDataset] message, wraps both datasets in a
    [CombinedNameDataset], writes the three serialisations next to the
    script, compresses them and removes the uncompressed files. *)

From Stdlib.Strings Require Import Byte.
From stdpp Require Import base option list strings gmap fin_maps.

Local Open Scope string_scope.

(** ** Data model *)

Abbreviation bytes := (list Byte.byte).

(** Why the conversion loop fails on an object that is not a dictionary
    of the expected shape: the object has no [items] or a value has no
    [get] ([AttributeError]), a key or a value has a type its field does
    not take ([TypeError]), or a number does not fit its field
    ([ValueError]). *)
Inductive shape_error :=
| no_attribute
| wrong_type
| out_of_range.

Section Model.

(** The values of the [country] and [gender] dictionaries are Python
    floats.  The message schema ([proto/names.proto]) that fixes the type
    of the corresponding map fields is generated outside this script, so
    the value type is a parameter: a field holds the value it was given. *)
Context {prob : Type}.

(** [data], the value stored under a name in the pickle: a dictionary in
    which each of the keys ['country'], ['gender'] and ['rank'] may be
    missing.  A rank is an integer or [None]; the width of the rank field
    is fixed by the schema as well, and ranks are taken as they are. *)
Record NameData := mkNameData {
  d_country : option (gmap string prob);
  d_gender : option (gmap string prob);
  d_rank : option (gmap string (option Z));
}.

(** [data.get('country', {})] and its two siblings. *)
Definition get_country (data : NameData) : gmap string prob :=
  default ∅ (d_country data).
Definition get_gender (data : NameData) : gmap string prob :=
  default ∅ (d_gender data).
Definition get_rank (data : NameData) : gmap string (option Z) :=
  default ∅ (d_rank data).

(** The object loaded from a pickle: a dictionary from names to [data].
    [items ()] walks it in insertion order, which decides the order of the
    repeated field [entries], hence a list of items. *)
Local Abbreviation names_dict := (list (string * NameData)).

(** What [pickle.load] can hand back.  Python checks nothing at the
    load: the object may be a names dictionary; it may be another object
    that has a length (a list, a dictionary with a value that is no
    dictionary, ...), on which the conversion loop raises; or it may be
    an object without a length (a number, ...). *)
Inductive pyobj :=
| NamesDict (mapping : names_dict)
| Sized (size : nat) (why : shape_error)
| Unsized.

(** The value of [len(obj)], when the object has one. *)
Definition size_of (obj : pyobj) : option nat :=
  match obj with
  | NamesDict mapping => Some (length mapping)
  | Sized size _ => Some size
  | Unsized => None
  end.

(** The names dictionary an object is, when it is one. *)
Definition as_names (obj : pyobj) : option names_dict :=
  match obj with
  | NamesDict mapping => Some mapping
  | Sized _ _ | Unsized => None
  end.

(** An element of [NameDataset.entries]; the three map fields are
    protobuf maps, compared by content. *)
Record NameEntry := mkNameEntry {
  name : string;
  country : gmap string prob;
  gender : gmap string prob;
  rank : gmap string Z;
}.

Record NameDataset := mkNameDataset {
  entries : list NameEntry;
}.

Record CombinedNameDataset := mkCombined {
  first_names : NameDataset;
  last_names : NameDataset;
}.

(** ** Message operations used by the script *)

(** [names_pb2.NameDataset()] *)
Definition NameDataset_new : NameDataset := {| entries := [] |}.

(** The message returned by [entries.add()] before any field is set. *)
Definition NameEntry_new : NameEntry :=
  {| name := ""; country := ∅; gender := ∅; rank := ∅ |}.

(** [entry.name = name] *)
Definition set_name (n : string) (entry : NameEntry) : NameEntry :=
  {| name := n; country := country entry;
     gender := gender entry; rank := rank entry |}.

(** [entry.country[country] = prob] *)
Definition set_country (c : string) (p : prob) (entry : NameEntry) : NameEntry :=
  {| name := name entry; country := <[c := p]> (country entry);
     gender := gender entry; rank := rank entry |}.

(** [entry.gender[gender] = prob] *)
Definition set_gender (g : string) (p : prob) (entry : NameEntry) : NameEntry :=
  {| name := name entry; country := country entry;
     gender := <[g := p]> (gender entry); rank := rank entry |}.

(** [entry.rank[country] = rank] *)
Definition set_rank (c : string) (r : Z) (entry : NameEntry) : NameEntry :=
  {| name := name entry; country := country entry;
     gender := gender entry; rank := <[c := r]> (rank entry) |}.

(** [entries.add()] appends a message to the repeated field and returns
    it; the loop body then fills it in.  Nothing reads the dataset while
    the entry is being filled, so the entry is appended once filled. *)
Definition entries_add (ds : NameDataset) (entry : NameEntry) : NameDataset :=
  {| entries := entries ds ++ [entry] |}.

(** ** The two conversion loops (lines 43-59 and 62-78) *)

Definition convert_first (first_names : names_dict) : NameDataset :=
  foldl (λ first_dataset '(name, data),
      let entry := NameEntry_new in
      let entry := set_name name entry in
      (* Country probabilities *)
      let entry :=
        map_fold (λ country prob entry, set_country country prob entry)
                 entry (get_country data) in
      (* Gender probabilities *)
      let entry :=
        map_fold (λ gender prob entry, set_gender gender prob entry)
                 entry (get_gender data) in
      (* Ranks *)
      let entry :=
        map_fold (λ country rank entry,
                    match rank with
                    | Some rank => set_rank country rank entry
                    | None => entry
                    end)
                 entry (get_rank data) in
      entries_add first_dataset entry)
    NameDataset_new first_names.

Definition convert_last (last_names : names_dict) : NameDataset :=
  foldl (λ last_dataset '(name, data),
      let entry := NameEntry_new in
      let entry := set_name name entry in
      (* Country probabilities *)
      let entry :=
        map_fold (λ country prob entry, set_country country prob entry)
                 entry (get_country data) in
      (* Gender probabilities (should be empty for last names) *)
      let entry :=
        map_fold (λ gender prob entry, set_gender gender prob entry)
                 entry (get_gender data) in
      (* Ranks *)
      let entry :=
        map_fold (λ country rank entry,
                    match rank with
                    | Some rank => set_rank country rank entry
                    | None => entry
                    end)
                 entry (get_rank data) in
      entries_add last_dataset entry)
    NameDataset_new last_names.

(** ** The projection as the specification words it

    One record per entry: the name, the [country] and [gender]
    sub-mappings as they are, and the [rank] sub-mapping without its
    null values. *)
Definition project_record (item : string * NameData) : NameEntry :=
  {| name := item.1;
     country := default ∅ (d_country item.2);
     gender := default ∅ (d_gender item.2);
     rank := omap id (default ∅ (d_rank item.2)) |}.

Definition project (mapping : names_dict) : NameDataset :=
  {| entries := project_record <$> mapping |}.

(** A decoded dataset reproduces a mapping: the same names in the same
    order, and for each name a probability under a country (a gender)
    exactly where the ['country'] (['gender']) dictionary of the input
    has that probability, and a rank under a country exactly where the
    ['rank'] dictionary of the input has that rank and not [None].  The
    input is read from the raw dictionaries [d_country], [d_gender] and
    [d_rank]. *)
Definition same_content (mapping : names_dict) (ds : NameDataset) : Prop :=
  Forall2 (λ item entry,
             name entry = item.1 ∧
             (∀ c p, country entry !! c = Some p ↔
                     ∃ cs, d_country item.2 = Some cs ∧ cs !! c = Some p) ∧
             (∀ g p, gender entry !! g = Some p ↔
                     ∃ gs, d_gender item.2 = Some gs ∧ gs !! g = Some p) ∧
             (∀ c r, rank entry !! c = Some r ↔
                     ∃ rs, d_rank item.2 = Some rs ∧
                           rs !! c = Some (Some r)))
          mapping (entries ds).

End Model.

Arguments NameData : clear implicits.
Arguments NameEntry : clear implicits.
Arguments NameDataset : clear implicits.
Arguments CombinedNameDataset : clear implicits.
Arguments pyobj : clear implicits.

Abbreviation names_dict prob := (list (string * NameData prob)).

(** ** The libraries the script calls

    [gzip], [pickle] and the protobuf runtime are not part of the
    repository.  They are taken by their contracts: decompressing what
    [gzip] wrote gives back the data, and parsing what a message
    serialised gives back a message equal to it. *)
Class Libraries (prob : Type) := {
  (** what ends up in [path] when [data] is written through
      [gzip.open(path, "wb")]; the gzip header records the file name *)
  gzip_compress : string → bytes → bytes;
  (** reading through [gzip.open(path, 'rb')]; [None] for bad data *)
  gzip_decompress : bytes → option bytes;
  gzip_decompress_compress path data :
    gzip_decompress (gzip_compress path data) = Some data;
  (** [pickle.load]: the object the stream unpickles to, whatever its
      shape; [None] when [pickle.load] itself raises *)
  pickle_load : bytes → option (pyobj prob);
  NameDataset_SerializeToString : NameDataset prob → bytes;
  NameDataset_FromString : bytes → option (NameDataset prob);
  NameDataset_FromString_SerializeToString ds :
    NameDataset_FromString (NameDataset_SerializeToString ds) = Some ds;
  CombinedNameDataset_SerializeToString : CombinedNameDataset prob → bytes;
  CombinedNameDataset_FromString : bytes → option (CombinedNameDataset prob);
  CombinedNameDataset_FromString_SerializeToString c :
    CombinedNameDataset_FromString (CombinedNameDataset_SerializeToString c)
    = Some c;
}.

(** ** Files, console and exceptions *)

Inductive exn :=
| FileNotFoundError (path : string)
| PermissionError (path : string)
| BadGzipFile (path : string)
| UnpicklingError (path : string)
| TypeError
| AttributeError
| ValueError.

(** The exceptions that come out of loading an input file: the file is
    missing, [gzip] rejects its bytes, or [pickle.load] raises. *)
Definition LoadError (e : exn) : bool :=
  match e with
  | FileNotFoundError _ | BadGzipFile _ | UnpicklingError _ => true
  | PermissionError _ | TypeError | AttributeError | ValueError => false
  end.

(** The exception behind a [shape_error]. *)
Definition shape_exn (why : shape_error) : exn :=
  match why with
  | no_attribute => AttributeError
  | wrong_type => TypeError
  | out_of_range => ValueError
  end.

(** The argument of one call of [print].  The two formatted ones keep
    their arguments instead of the rendered digits; a text may hold a
    newline of its own. *)
Inductive line :=
| Text (s : string)
| Loaded (count : nat) (what : string)       (* f"Loaded {count:,} {what}" *)
| FileSize (filename : string) (size : nat). (* f"  {filename}: {size_mb:.2f} MB" *)

(** A call that touches the file system. *)
Inductive fs_call :=
| OpenRead (path : string)
| OpenWrite (path : string)
| Unlink (path : string)
| Stat (path : string).

Record World := mkWorld {
  files : gmap string bytes;
  stdout : list line;
  calls : list fs_call;
}.

Inductive result (A : Type) :=
| Return (a : A)
| Raise (e : exn).
Arguments Return {A} a.
Arguments Raise {A} e.

(** A statement: it runs in a world and either returns or raises, and
    leaves a world behind in both cases. *)
Definition IO (A : Type) : Type := World → result A * World.

#[export] Instance IO_ret : MRet IO := λ A a w, (Return a, w).
#[export] Instance IO_bind : MBind IO := λ A B k c w,
  match c w with
  | (Return a, w') => k a w'
  | (Raise e, w') => (Raise e, w')
  end.

Definition raise {A} (e : exn) : IO A := λ w, (Raise e, w).

Definition print (l : line) : IO unit := λ w,
  (Return (), {| files := files w; stdout := stdout w ++ [l];
                 calls := calls w |}).

Definition record_call (c : fs_call) (w : World) : World :=
  {| files := files w; stdout := stdout w; calls := calls w ++ [c] |}.

Definition set_files (fs : gmap string bytes) (w : World) : World :=
  {| files := fs; stdout := stdout w; calls := calls w |}.

(** [for x in xs: body] *)
Fixpoint for_each {A} (xs : list A) (body : A → IO unit) : IO unit :=
  match xs with
  | [] => mret ()
  | x :: xs => body x;; for_each xs body
  end.

(** A statement that leaves every file outside [allowed] as it found it,
    however it ends. *)
Definition touches_only {A} (allowed : string → Prop) (c : IO A) : Prop :=
  ∀ w path, ¬ allowed path → files (c w).2 !! path = files w !! path.


(** [Path / name] *)
Definition path_join (dir name : string) : string := dir +:+ "/" +:+ name.
Infix "//" := path_join (at level 40, left associativity).

Section Script.

Context {prob : Type} `{!Libraries prob}.

(** Whether [from proto import names_pb2] succeeds. *)
Variable names_pb2_importable : bool.
(** [Path(__file__).parent.parent.parent] and [Path(__file__).parent]. *)
Variables base_path output_dir : string.
(** The paths that can be opened for writing. *)
Variable writable : string → bool.

(** [open(path, "rb")] followed by [read()] *)
Definition open_rb (path : string) : IO bytes := λ w,
  let w := record_call (OpenRead path) w in
  match files w !! path with
  | Some data => (Return data, w)
  | None => (Raise (FileNotFoundError path), w)
  end.

(** [open(path, "wb")] followed by [write(data)] *)
Definition open_wb (path : string) (data : bytes) : IO unit := λ w,
  let w := record_call (OpenWrite path) w in
  if writable path
  then (Return (), set_files (<[path := data]> (files w)) w)
  else (Raise (PermissionError path), w).

(** [path.unlink()] *)
Definition unlink (path : string) : IO unit := λ w,
  let w := record_call (Unlink path) w in
  match files w !! path with
  | Some _ => (Return (), set_files (delete path (files w)) w)
  | None => (Raise (FileNotFoundError path), w)
  end.

(** [path.stat().st_size] *)
Definition stat_st_size (path : string) : IO nat := λ w,
  let w := record_call (Stat path) w in
  match files w !! path with
  | Some data => (Return (length data), w)
  | None => (Raise (FileNotFoundError path), w)
  end.

(** [with gzip.open(path, 'rb') as f: pickle.load(f)] (lines 31-32,
    35-36): the object is handed back as it is; [UnpicklingError] stands
    for whatever [pickle.load] raises. *)
Definition gzip_open_pickle_load (path : string) : IO (pyobj prob) :=
  raw ← open_rb path;
  match gzip_decompress raw with
  | None => raise (BadGzipFile path)
  | Some stream =>
      match pickle_load stream with
      | None => raise (UnpicklingError path)
      | Some obj => mret obj
      end
  end.

(** [len(obj)] (lines 33 and 37): [TypeError] for an object without a
    length. *)
Definition len (obj : pyobj prob) : IO nat :=
  match size_of obj with
  | Some size => mret size
  | None => raise TypeError
  end.

(** The items that [for name, data in obj.items()] (lines 44 and 63)
    hands to the loop body.  On an object that is no names dictionary
    the loop raises, at [items] or in its body; it has only touched the
    message it was filling, which is lost with the exception. *)
Definition items (obj : pyobj prob) : IO (names_dict prob) :=
  match obj with
  | NamesDict mapping => mret mapping
  | Sized _ why => raise (shape_exn why)
  | Unsized => raise AttributeError
  end.

(** [names_pb2.CombinedNameDataset()] and the two [CopyFrom] calls *)
Definition CombinedNameDataset_new : CombinedNameDataset prob :=
  {| first_names := NameDataset_new; last_names := NameDataset_new |}.
Definition first_names_CopyFrom (ds : NameDataset prob)
    (combined : CombinedNameDataset prob) : CombinedNameDataset prob :=
  {| first_names := ds; last_names := last_names combined |}.
Definition last_names_CopyFrom (ds : NameDataset prob)
    (combined : CombinedNameDataset prob) : CombinedNameDataset prob :=
  {| first_names := first_names combined; last_names := ds |}.

(** The body of the loop of lines 103-108. *)
Definition compress_and_write (filename : string) : IO unit :=
  data ← open_rb (output_dir // filename);
  open_wb (output_dir // (filename +:+ ".gz"))
          (gzip_compress (output_dir // (filename +:+ ".gz")) data);;
  (* Remove uncompressed version *)
  unlink (output_dir // filename).

(** The body of the loop of lines 112-115. *)
Definition print_size (filename : string) : IO unit :=
  size ← stat_st_size (output_dir // filename);
  print (FileSize filename size).

Definition newline : string := String (Ascii.ascii_of_nat 10) "".

Definition export_to_protobuf : IO bool :=
  (* Import the generated protobuf classes *)
  if negb names_pb2_importable then
    print (Text "Error: protobuf classes not found. Please run protoc to generate Python classes first.");;
    mret false
  else
    (* Load pickle files *)
    let first_path := base_path // "names_dataset/v3/first_names.pkl.gz" in
    let last_path := base_path // "names_dataset/v3/last_names.pkl.gz" in
    print (Text "Loading pickle files...");;
    first_names ← gzip_open_pickle_load first_path;
    count ← len first_names;
    print (Loaded count "first names");;
    last_names ← gzip_open_pickle_load last_path;
    count ← len last_names;
    print (Loaded count "last names");;
    (* Create protobuf datasets *)
    print (Text "Converting to protobuf format...");;
    (* Convert first names *)
    first_items ← items first_names;
    let first_dataset := convert_first first_items in
    (* Convert last names *)
    last_items ← items last_names;
    let last_dataset := convert_last last_items in
    (* Create combined dataset *)
    let combined := CombinedNameDataset_new in
    let combined := first_names_CopyFrom first_dataset combined in
    let combined := last_names_CopyFrom last_dataset combined in
    (* Write to files *)
    print (Text "Writing protobuf files...");;
    open_wb (output_dir // "first_names.pb")
            (NameDataset_SerializeToString first_dataset);;
    open_wb (output_dir // "last_names.pb")
            (NameDataset_SerializeToString last_dataset);;
    open_wb (output_dir // "combined_names.pb")
            (CombinedNameDataset_SerializeToString combined);;
    (* Compress files *)
    print (Text "Compressing files...");;
    for_each ["first_names.pb"; "last_names.pb"; "combined_names.pb"]
             compress_and_write;;
    (* Print file sizes *)
    print (Text (newline +:+ "Generated files:"));;
    for_each ["first_names.pb.gz"; "last_names.pb.gz"; "combined_names.pb.gz"]
             print_size;;
    print (Text "Export complete!");;
    mret true.


(** The object an input file unpickles to: [None] when the file is
    missing, is not valid compressed data, or [pickle.load] raises. *)
Definition loaded (w : World) (path : string) : option (pyobj prob) :=
  raw ← files w !! path; stream ← gzip_decompress raw; pickle_load stream.

(** What an input file holds: [None] when the file is missing, is not
    valid compressed data, or does not unpickle to a names dictionary. *)
Definition stored_mapping (w : World) (path : string)
    : option (names_dict prob) :=
  obj ← loaded w path; as_names obj.

(** The six paths the script opens for writing. *)
Definition destinations : list string :=
  (path_join output_dir) <$>
    ["first_names.pb"; "last_names.pb"; "combined_names.pb";
     "first_names.pb.gz"; "last_names.pb.gz"; "combined_names.pb.gz"].

(** The files left by the loop of lines 103-108 for one file name, and
    by a run that reaches its end, given the two loaded dictionaries. *)
Definition compressed (fs : gmap string bytes) (filename : string)
    (data : bytes) : gmap string bytes :=
  delete (output_dir // filename)
    (<[output_dir // (filename +:+ ".gz") :=
         gzip_compress (output_dir // (filename +:+ ".gz")) data]> fs).

Definition exported_files (fs : gmap string bytes)
    (first_names last_names : names_dict prob) : gmap string bytes :=
  let first_dataset := convert_first first_names in
  let last_dataset := convert_last last_names in
  let combined := mkCombined first_dataset last_dataset in
  let fs := <[output_dir // "first_names.pb" :=
                NameDataset_SerializeToString first_dataset]> fs in
  let fs := <[output_dir // "last_names.pb" :=
                NameDataset_SerializeToString last_dataset]> fs in
  let fs := <[output_dir // "combined_names.pb" :=
                CombinedNameDataset_SerializeToString combined]> fs in
  let fs := compressed fs "first_names.pb"
              (NameDataset_SerializeToString first_dataset) in
  let fs := compressed fs "last_names.pb"
              (NameDataset_SerializeToString last_dataset) in
  compressed fs "combined_names.pb"
    (CombinedNameDataset_SerializeToString combined).

(** Reading an output file back: gunzip, then parse. *)
Definition decode_dataset (w : World) (path : string) : option (NameDataset prob) :=
  raw ← files w !! path; data ← gzip_decompress raw; NameDataset_FromString data.
Definition decode_combined (w : World) (path : string)
    : option (CombinedNameDataset prob) :=
  raw ← files w !! path; data ← gzip_decompress raw;
  CombinedNameDataset_FromString data.

End Script.

(** ** A model of the library contracts

    One implementation of [Libraries], so that the contracts above are
    known to be consistent and the statements about the script can be
    run on concrete worlds.  Values are numbered through stdpp's
    [Countable] and the number is written bit by bit, one byte per bit;
    compression puts the two gzip magic bytes in front of the data. *)
Module Reference.

Fixpoint pos_to_bytes (p : positive) : bytes :=
  match p with
  | xH => []
  | xO p => x00 :: pos_to_bytes p
  | xI p => x01 :: pos_to_bytes p
  end.

Fixpoint bytes_to_pos (data : bytes) : option positive :=
  match data with
  | [] => Some xH
  | x00 :: data => xO <$> bytes_to_pos data
  | x01 :: data => xI <$> bytes_to_pos data
  | _ => None
  end.

Definition dumps `{Countable A} (a : A) : bytes := pos_to_bytes (encode a).
Definition loads `{Countable A} (data : bytes) : option A :=
  bytes_to_pos data ≫= decode.

Definition compress (path : string) (data : bytes) : bytes :=
  x1f :: x8b :: data.
Definition decompress (data : bytes) : option bytes :=
  match data with
  | x1f :: x8b :: data => Some data
  | _ => None
  end.

Section Records.
Context `{Countable prob}.

#[export] Instance NameData_eq_dec : EqDecision (NameData prob).
Proof. solve_decision. Defined.
#[export] Instance NameEntry_eq_dec : EqDecision (NameEntry prob).
Proof. solve_decision. Defined.
#[export] Instance NameDataset_eq_dec : EqDecision (NameDataset prob).
Proof. solve_decision. Defined.
#[export] Instance CombinedNameDataset_eq_dec :
  EqDecision (CombinedNameDataset prob).
Proof. solve_decision. Defined.

#[export] Instance shape_error_eq_dec : EqDecision shape_error.
Proof. solve_decision. Defined.
#[export] Instance shape_error_countable : Countable shape_error.
Proof.
  refine (inj_countable'
            (λ why, match why with
                    | no_attribute => 0%nat
                    | wrong_type => 1%nat
                    | out_of_range => 2%nat
                    end)
            (λ n, match n with
                  | 0%nat => no_attribute
                  | 1%nat => wrong_type
                  | _ => out_of_range
                  end) _).
  by intros [].
Defined.

#[export] Instance NameData_countable : Countable (NameData prob).
Proof.
  refine (inj_countable' (λ d, (d_country d, d_gender d, d_rank d))
            (λ t, mkNameData t.1.1 t.1.2 t.2) _).
  by intros [].
Defined.
#[export] Instance NameEntry_countable : Countable (NameEntry prob).
Proof.
  refine (inj_countable' (λ e, (name e, country e, gender e, rank e))
            (λ t, mkNameEntry t.1.1.1 t.1.1.2 t.1.2 t.2) _).
  by intros [].
Defined.
#[export] Instance NameDataset_countable : Countable (NameDataset prob).
Proof.
  refine (inj_countable' entries mkNameDataset _).
  by intros [].
Defined.
#[export] Instance CombinedNameDataset_countable :
  Countable (CombinedNameDataset prob).
Proof.
  refine (inj_countable' (λ c, (first_names c, last_names c))
            (λ t, mkCombined t.1 t.2) _).
  by intros [].
Defined.

#[export] Instance pyobj_eq_dec : EqDecision (pyobj prob).
Proof. solve_decision. Defined.
#[export] Instance pyobj_countable : Countable (pyobj prob).
Proof.
  refine (inj_countable'
            (λ obj, match obj with
                    | NamesDict mapping => inl mapping
                    | Sized size why => inr (Some (size, why))
                    | Unsized => inr None
                    end)
            (λ x, match x with
                  | inl mapping => NamesDict mapping
                  | inr (Some (size, why)) => Sized size why
                  | inr None => Unsized
                  end) _).
  by intros [].
Defined.

End Records.

(** A small world to run the script in: the repository at [/repo], the
    script in [/repo/src/data], every path writable, and the two inputs
    of the specification's scenarios.  A probability is written as the
    64 bits of its double: [0.9], [1.0] and [0.5]. *)
Definition base_path : string := "/repo".
Definition output_dir : string := "/repo/src/data".
Definition writable (path : string) : bool := true.

Definition alice : names_dict Z :=
  [("Alice", {| d_country := Some {["US" := 0x3FECCCCCCCCCCCCD%Z]};
                d_gender := Some {["F" := 0x3FF0000000000000%Z]};
                d_rank := Some {["US" := Some 5%Z]} |})].
Definition smith : names_dict Z :=
  [("Smith", {| d_country := Some {["US" := 0x3FE0000000000000%Z]};
                d_gender := None;
                d_rank := Some {["US" := None]} |})].

Definition first_path : string :=
  base_path // "names_dataset/v3/first_names.pkl.gz".
Definition last_path : string :=
  base_path // "names_dataset/v3/last_names.pkl.gz".

Definition with_inputs : World :=
  {| files := <[first_path := compress first_path (dumps (NamesDict alice))]>
                {[last_path := compress last_path (dumps (NamesDict smith))]};
     stdout := []; calls := [] |}.


Definition with_uncompressed : World :=
  {| files := {[output_dir // "first_names.pb" := [x0a; x05]]};
     stdout := []; calls := [] |}.

End Reference.

(** ** Worlds in which a run fails half-way *)
Module Scenarios.
Import Reference.

(** Every path can be written except [denied]. *)
Definition all_but (denied : string) (path : string) : bool :=
  bool_decide (path ≠ denied).


(** The first input is the pickle of a list of three names, an object
    with a length and without [items]; the second is as it should be. *)
Definition with_list_first : World :=
  {| files :=
       <[first_path :=
           compress first_path (dumps (Sized (prob := Z) 3 no_attribute))]>
         {[last_path := compress last_path (dumps (NamesDict smith))]};
     stdout := []; calls := [] |}.

(** The first input is the pickle of a number, an object without a
    length. *)
Definition with_number_first : World :=
  {| files :=
       {[first_path := compress first_path (dumps (Unsized (prob := Z)))]};
     stdout := []; calls := [] |}.

End Scenarios.

(** * Properties *)

(** ** The conversion loops *)

Section ModelFacts.
Context {prob : Type}.
Implicit Types (m : names_dict prob) (data : NameData prob)
  (entry : NameEntry prob).

Lemma fill_country n (cs : gmap string prob) :
  map_fold (λ c p entry, set_country c p entry)
           (mkNameEntry n ∅ ∅ ∅) cs
  = mkNameEntry n cs ∅ ∅.
Proof.
  apply (map_fold_weak_ind (λ entry cs', entry = mkNameEntry n cs' ∅ ∅)).
  - done.
  - intros c p cs' entry _ ->. done.
Qed.

Lemma fill_gender n (cs gs : gmap string prob) :
  map_fold (λ g p entry, set_gender g p entry)
           (mkNameEntry n cs ∅ ∅) gs
  = mkNameEntry n cs gs ∅.
Proof.
  apply (map_fold_weak_ind (λ entry gs', entry = mkNameEntry n cs gs' ∅)).
  - done.
  - intros g p gs' entry _ ->. done.
Qed.

Lemma fill_rank n (cs gs : gmap string prob) (rs : gmap string (option Z)) :
  map_fold (λ c r entry,
              match r with
              | Some r => set_rank c r entry
              | None => entry
              end)
           (mkNameEntry n cs gs ∅) rs
  = mkNameEntry n cs gs (omap id rs).
Proof.
  apply (map_fold_weak_ind
           (λ entry rs', entry = mkNameEntry n cs gs (omap id rs'))).
  - by rewrite omap_empty.
  - intros c [r|] rs' entry Hfresh ->.
    + by rewrite (omap_insert_Some _ _ _ _ r).
    + rewrite omap_insert_None by done.
      rewrite delete_id; [done|]. by rewrite lookup_omap, Hfresh.
Qed.

(** One turn of either loop appends the projected record. *)
Lemma loop_body n data :
  map_fold (λ c r entry,
              match r with
              | Some r => set_rank c r entry
              | None => entry
              end)
    (map_fold (λ g p entry, set_gender g p entry)
       (map_fold (λ c p entry, set_country c p entry)
          (set_name n NameEntry_new) (get_country data))
       (get_gender data))
    (get_rank data)
  = project_record (n, data).
Proof.
  unfold set_name, NameEntry_new; simpl.
  by rewrite fill_country, fill_gender, fill_rank.
Qed.

Lemma convert_first_from (ds : NameDataset prob) m :
  foldl (λ first_dataset '(name, data),
      let entry := NameEntry_new in
      let entry := set_name name entry in
      let entry :=
        map_fold (λ country prob entry, set_country country prob entry)
                 entry (get_country data) in
      let entry :=
        map_fold (λ gender prob entry, set_gender gender prob entry)
                 entry (get_gender data) in
      let entry :=
        map_fold (λ country rank entry,
                    match rank with
                    | Some rank => set_rank country rank entry
                    | None => entry
                    end)
                 entry (get_rank data) in
      entries_add first_dataset entry) ds m
  = mkNameDataset (entries ds ++ (project_record <$> m)).
Proof.
  revert ds; induction m as [|[n data] m IH]; intros ds; simpl.
  - rewrite app_nil_r. by destruct ds.
  - rewrite IH, loop_body. unfold entries_add; simpl.
    by rewrite <- app_assoc.
Qed.

Lemma convert_first_project m : convert_first m = project m.
Proof. unfold convert_first. by rewrite convert_first_from. Qed.

Lemma convert_last_project m : convert_last m = project m.
Proof. unfold convert_last. by rewrite convert_first_from. Qed.

Lemma project_lookup m i :
  entries (project m) !! i = project_record <$> m !! i.
Proof. unfold project; simpl. apply list_lookup_fmap. Qed.

Lemma project_Forall2 (R : string * NameData prob → NameEntry prob → Prop) m :
  (∀ item, R item (project_record item)) →
  Forall2 R m (entries (project m)).
Proof.
  intros HR. unfold project; simpl.
  induction m; constructor; auto.
Qed.

End ModelFacts.

Section ConversionClaims.
Context {prob : Type}.
Implicit Types (m : names_dict prob) (data : NameData prob).

(** C3: the projection builds one record per entry of the input mapping,
    in the iteration order of the mapping; the [country] map of the
    record is the ['country'] dictionary of the input entry as it is,
    key for key and value for value, and the empty map when the entry
    has no such dictionary; the same for [gender].  This holds for both
    loops. *)
Theorem projection_verbatim_in_order m :
  Forall2 (λ item entry,
             name entry = item.1 ∧
             (∀ cs, d_country item.2 = Some cs → country entry = cs) ∧
             (d_country item.2 = None → country entry = ∅) ∧
             (∀ gs, d_gender item.2 = Some gs → gender entry = gs) ∧
             (d_gender item.2 = None → gender entry = ∅))
          m (entries (convert_first m)) ∧
  Forall2 (λ item entry,
             name entry = item.1 ∧
             (∀ cs, d_country item.2 = Some cs → country entry = cs) ∧
             (d_country item.2 = None → country entry = ∅) ∧
             (∀ gs, d_gender item.2 = Some gs → gender entry = gs) ∧
             (d_gender item.2 = None → gender entry = ∅))
          m (entries (convert_last m)).
Proof.
  rewrite convert_first_project, ?convert_last_project.
  split; apply project_Forall2; intros [n data]; simpl;
    repeat split; by intros; simplify_option_eq.
Qed.

(** C2: for the entry at any position of the input: when it has no
    ['rank'] dictionary the output entry has an empty rank map; when it
    has one, a country that the dictionary maps to [None] is no key of
    the output rank map, a country that it maps to an integer is mapped
    to that integer, and a country that is no key of the dictionary is
    no key of the output either.  Both loops. *)
Theorem null_rank_absent m (i : nat) (n : string) data :
  m !! i = Some (n, data) →
  ∀ ds, ds = convert_first m ∨ ds = convert_last m →
    ∃ entry, entries ds !! i = Some entry ∧ name entry = n ∧
      (d_rank data = None → rank entry = ∅) ∧
      (∀ rs c, d_rank data = Some rs →
         (rs !! c = Some None → rank entry !! c = None) ∧
         (∀ r : Z, rs !! c = Some (Some r) → rank entry !! c = Some r) ∧
         (rs !! c = None → rank entry !! c = None)).
Proof.
  intros Hi ds Hds.
  assert (ds = project m) as ->.
  { destruct Hds as [-> | ->];
      auto using convert_first_project, convert_last_project. }
  exists (project_record (n, data)). rewrite project_lookup, Hi.
  split; [done|]. split; [done|]. simpl. split.
  - intros ->. simpl. apply omap_empty.
  - intros rs c ->. simpl. rewrite lookup_omap.
    repeat split; by intros; simplify_option_eq.
Qed.

(** C7: the output has exactly one record per input key, with the keys in
    order as names; a sub-mapping that is absent or empty gives an empty
    map in the record, never a dropped record.  The entry for
    [{"Smith": {"country": {"US": p}, "rank": {"US": None}}}] is
    [name="Smith", country={"US": p}, gender={}, rank={}] for every value
    [p], [0.5] among them. *)
Theorem record_for_every_entry m :
  name <$> entries (convert_first m) = m.*1 ∧
  name <$> entries (convert_last m) = m.*1 ∧
  length (entries (convert_first m)) = length m ∧
  length (entries (convert_last m)) = length m ∧
  (∀ i n data, m !! i = Some (n, data) →
     ∃ entry, entries (convert_first m) !! i = Some entry ∧
              entries (convert_last m) !! i = Some entry ∧
              name entry = n ∧
       (d_country data = None ∨ d_country data = Some ∅ → country entry = ∅) ∧
       (d_gender data = None ∨ d_gender data = Some ∅ → gender entry = ∅) ∧
       (d_rank data = None ∨ d_rank data = Some ∅ → rank entry = ∅)) ∧
  (∀ p : prob,
     let smith := [("Smith", {| d_country := Some {["US" := p]};
                                d_gender := None;
                                d_rank := Some {["US" := None]} |})] in
     let entry := {| name := "Smith"; country := {["US" := p]};
                     gender := ∅; rank := ∅ |} in
     entries (convert_first smith) = [entry] ∧
     entries (convert_last smith) = [entry]).
Proof.
  rewrite convert_first_project, convert_last_project.
  unfold project; simpl. rewrite length_fmap, <- list_fmap_compose.
  repeat split; try done.
  - intros i n data Hi. exists (project_record (n, data)).
    rewrite list_lookup_fmap, Hi.
    repeat split; simpl; try done.
    + unfold get_country. by intros [-> | ->].
    + unfold get_gender. by intros [-> | ->].
    + unfold get_rank. intros [-> | ->]; simpl; by rewrite omap_empty.
Qed.

(** C9: the first-name loop and the last-name loop compute the same
    function, the projection of the specification: on every input mapping
    they produce equal datasets, each equal to [project] of the mapping. *)
Theorem loops_agree m :
  convert_first m = convert_last m ∧
  convert_first m = project m ∧
  convert_last m = project m.
Proof.
  rewrite convert_first_project, convert_last_project. by repeat split.
Qed.

End ConversionClaims.

(** The first scenario of the specification, run through the first-name
    loop: Alice keeps her country, gender and rank. *)
Example alice_scenario :
  entries (convert_first Reference.alice)
  = [ {| name := "Alice";
         country := {["US" := 0x3FECCCCCCCCCCCCD%Z]};
         gender := {["F" := 0x3FF0000000000000%Z]};
         rank := {["US" := 5%Z]} |} ].
Proof. reflexivity. Qed.

(** A witness of C2, at [{"Smith": {"country": {"US": 5}, "rank": {"US":
    None, "GB": 3}}}], position 0: ["US"], ranked [None], is no key of
    the output rank map; ["GB"], ranked 3, is mapped to 3; ["FR"], not
    ranked, is no key. *)
Lemma null_rank_absent_witness :
  let ranks : gmap string (option Z) :=
    <["GB" := Some 3%Z]> {["US" := None]} in
  let data : NameData Z :=
    {| d_country := Some {["US" := 5%Z]}; d_gender := None;
       d_rank := Some ranks |} in
  let m := [("Smith", data)] in
  m !! 0%nat = Some ("Smith", data) ∧
  ∃ entry, entries (convert_first m) !! 0%nat = Some entry ∧
           name entry = "Smith" ∧
           rank entry !! "US" = None ∧
           rank entry !! "GB" = Some 3%Z ∧
           rank entry !! "FR" = None.
Proof.
  intros ranks data m. split; [reflexivity|].
  destruct (null_rank_absent m 0 "Smith" data eq_refl
              (convert_first m) (or_introl eq_refl))
    as (entry & Hentry & Hname & _ & Hranks).
  exists entry. split; [exact Hentry|]. split; [exact Hname|].
  split; [|split].
  - exact (proj1 (Hranks ranks "US" eq_refl) eq_refl).
  - exact (proj1 (proj2 (Hranks ranks "GB" eq_refl)) 3%Z eq_refl).
  - exact (proj2 (proj2 (Hranks ranks "FR" eq_refl)) eq_refl).
Defined.

(** ** Paths *)

Lemma path_join_inj dir a b : dir // a = dir // b → a = b.
Proof.
  unfold path_join. intros Heq.
  apply (inj (String.app dir)) in Heq. by simplify_eq.
Qed.

Lemma append_length (s t : string) :
  String.length (s +:+ t) = (String.length s + String.length t)%nat.
Proof. induction s; simpl; [done|]. by rewrite IHs. Qed.

Lemma gz_name_fresh dir filename :
  dir // filename ≠ dir // (filename +:+ ".gz").
Proof.
  intros Heq%path_join_inj. apply (f_equal String.length) in Heq.
  rewrite append_length in Heq. simpl in Heq. lia.
Qed.

Ltac path_neq :=
  solve [ apply gz_name_fresh
        | apply not_eq_sym, gz_name_fresh
        | let H := fresh in
          intros H%path_join_inj; vm_compute in H; discriminate H ].

(** ** Running the script *)

Section ScriptFacts.
Context {prob : Type} `{!Libraries prob}.
Variables (base_path output_dir : string) (writable : string → bool).

Local Abbreviation first_path := (base_path // "names_dataset/v3/first_names.pkl.gz").
Local Abbreviation last_path := (base_path // "names_dataset/v3/last_names.pkl.gz").

Lemma stored_mapping_Some w path m :
  stored_mapping w path = Some m ↔ loaded w path = Some (NamesDict m).
Proof.
  unfold stored_mapping.
  destruct (loaded w path) as [[m'| |]|]; simpl; split; congruence.
Qed.

Lemma load_returns w path obj :
  loaded w path = Some obj →
  gzip_open_pickle_load path w = (Return obj, record_call (OpenRead path) w).
Proof.
  unfold loaded, gzip_open_pickle_load, open_rb, mbind, IO_bind; simpl.
  destruct (files w !! path) as [raw|]; simpl; [|done].
  destruct (gzip_decompress raw) as [stream|]; simpl; [|done].
  by intros ->.
Qed.

Lemma load_names w path m :
  stored_mapping w path = Some m →
  gzip_open_pickle_load path w
  = (Return (NamesDict m), record_call (OpenRead path) w).
Proof. intros Hm%stored_mapping_Some. by apply load_returns. Qed.

Lemma load_raises w path :
  loaded w path = None →
  ∃ e, LoadError e = true ∧
       gzip_open_pickle_load path w = (Raise e, record_call (OpenRead path) w).
Proof.
  unfold loaded, gzip_open_pickle_load, open_rb, mbind, IO_bind; simpl.
  destruct (files w !! path) as [raw|]; simpl;
    [|by exists (FileNotFoundError path)].
  destruct (gzip_decompress raw) as [stream|]; simpl;
    [|by exists (BadGzipFile path)].
  destruct (pickle_load stream); [done|by exists (UnpicklingError path)].
Qed.

Lemma stored_mapping_loaded_None w path :
  loaded w path = None → stored_mapping w path = None.
Proof. unfold stored_mapping. by intros ->. Qed.

Lemma stored_mapping_not_names w path obj :
  loaded w path = Some obj → as_names obj = None →
  stored_mapping w path = None.
Proof. unfold stored_mapping. by intros ->. Qed.

Lemma bind_Return {A B} (c : IO A) (k : A → IO B) w a w1 :
  c w = (Return a, w1) → (c ≫= k) w = k a w1.
Proof. unfold mbind, IO_bind. by intros ->. Qed.

Lemma bind_Raise {A B} (c : IO A) (k : A → IO B) w e w1 :
  c w = (Raise e, w1) → (c ≫= k) w = (Raise e, w1).
Proof. unfold mbind, IO_bind. by intros ->. Qed.

Lemma open_wb_returns path data w :
  writable path = true →
  open_wb writable path data w
  = (Return (), set_files (<[path := data]> (files w))
                  (record_call (OpenWrite path) w)).
Proof. unfold open_wb; simpl. by intros ->. Qed.

Lemma open_wb_raises path data w :
  writable path = false →
  open_wb writable path data w
  = (Raise (PermissionError path), record_call (OpenWrite path) w).
Proof. unfold open_wb; simpl. by intros ->. Qed.

Lemma compress_and_write_returns filename data w :
  files w !! (output_dir // filename) = Some data →
  writable (output_dir // (filename +:+ ".gz")) = true →
  ∃ w', compress_and_write output_dir writable filename w = (Return (), w') ∧
        files w' = compressed output_dir (files w) filename data.
Proof.
  intros Hdata Hw. unfold compress_and_write.
  erewrite bind_Return; cycle 1.
  { unfold open_rb; simpl. by rewrite Hdata. }
  erewrite bind_Return; cycle 1.
  { by apply open_wb_returns. }
  unfold unlink; simpl.
  rewrite lookup_insert_ne by path_neq. rewrite Hdata.
  by eexists.
Qed.

Lemma lookup_compressed_gz fs filename data :
  compressed output_dir fs filename data !! (output_dir // (filename +:+ ".gz"))
  = Some (gzip_compress (output_dir // (filename +:+ ".gz")) data).
Proof.
  unfold compressed. rewrite lookup_delete_ne by path_neq.
  by rewrite lookup_insert_eq.
Qed.

Lemma lookup_compressed_src fs filename data :
  compressed output_dir fs filename data !! (output_dir // filename) = None.
Proof. unfold compressed. by rewrite lookup_delete_eq. Qed.

Lemma lookup_compressed_other fs filename data path :
  path ≠ output_dir // filename →
  path ≠ output_dir // (filename +:+ ".gz") →
  compressed output_dir fs filename data !! path = fs !! path.
Proof.
  intros Hsrc Hgz. unfold compressed.
  rewrite lookup_delete_ne by done. by rewrite lookup_insert_ne.
Qed.

Lemma print_size_returns filename data w :
  files w !! (output_dir // filename) = Some data →
  ∃ w', print_size output_dir filename w = (Return (), w') ∧
        files w' = files w.
Proof.
  intros Hdata. unfold print_size.
  erewrite bind_Return; cycle 1.
  { unfold stat_st_size; simpl. by rewrite Hdata. }
  by eexists.
Qed.

Lemma compress_and_write_raises filename data w :
  files w !! (output_dir // filename) = Some data →
  writable (output_dir // (filename +:+ ".gz")) = false →
  ∃ w', compress_and_write output_dir writable filename w
        = (Raise (PermissionError (output_dir // (filename +:+ ".gz"))), w') ∧
        files w' = files w.
Proof.
  intros Hdata Hw. unfold compress_and_write.
  erewrite bind_Return; cycle 1.
  { unfold open_rb; simpl. by rewrite Hdata. }
  erewrite bind_Raise; cycle 1.
  { by apply open_wb_raises. }
  by eexists.
Qed.

Ltac permission_denied :=
  eexists _, _; split; [reflexivity|];
  right; eexists; split; [reflexivity|];
  split; [unfold destinations; repeat constructor|];
  split; [assumption|]; split; eauto.

Lemma size_of_None_not_names (obj : pyobj prob) :
  size_of obj = None → as_names obj = None.
Proof. by destruct obj. Qed.

Lemma shape_exn_not_LoadError why : LoadError (shape_exn why) = false.
Proof. by destruct why. Qed.

(** Every way a run with the bindings in place can end. *)
Lemma export_outcome w :
  ∃ r w', export_to_protobuf true base_path output_dir writable w = (r, w') ∧
    match r with
    | Return b =>
        b = true ∧
        ∃ m1 m2, stored_mapping w first_path = Some m1 ∧
                 stored_mapping w last_path = Some m2 ∧
                 Forall (λ p, writable p = true) (destinations output_dir) ∧
                 files w' = exported_files output_dir (files w) m1 m2
    | Raise e =>
        ((stored_mapping w first_path = None ∨
          stored_mapping w last_path = None) ∧
         files w' = files w ∧
         (loaded w first_path = None → LoadError e = true) ∧
         (∀ obj, loaded w first_path = Some obj → is_Some (size_of obj) →
                 loaded w last_path = None → LoadError e = true) ∧
         (is_Some (loaded w first_path) → is_Some (loaded w last_path) →
          LoadError e = false)) ∨
        (∃ p, e = PermissionError p ∧ p ∈ destinations output_dir ∧
              writable p = false ∧
              is_Some (stored_mapping w first_path) ∧
              is_Some (stored_mapping w last_path))
    end.
Proof.
  unfold export_to_protobuf; cbn [negb].
  erewrite bind_Return; [|reflexivity].
  (* loading the first names *)
  destruct (loaded w first_path) as [o1|] eqn:L1; cycle 1.
  { match goal with
    | |- context [(gzip_open_pickle_load ?p ≫= _) ?w0] =>
        destruct (load_raises w0 p L1) as (e & He & Hrun)
    end.
    erewrite bind_Raise; [|exact Hrun].
    eexists _, _; split; [reflexivity|]. left.
    split; [left; by apply stored_mapping_loaded_None|].
    split; [reflexivity|]. split; [done|].
    split; [done|]. by intros [? ?]. }
  erewrite bind_Return; [|by apply load_returns].
  destruct (size_of o1) as [n1|] eqn:S1; cycle 1.
  { erewrite bind_Raise; [|unfold len; by rewrite S1].
    eexists _, _; split; [reflexivity|]. left.
    split; [left; eauto using stored_mapping_not_names,
                    size_of_None_not_names|].
    split; [reflexivity|]. split; [done|].
    split; [|done]. intros obj [= <-]. rewrite S1. by intros [? ?]. }
  erewrite bind_Return; [|unfold len; by rewrite S1].
  erewrite bind_Return; [|reflexivity].
  (* loading the last names *)
  destruct (loaded w last_path) as [o2|] eqn:L2; cycle 1.
  { match goal with
    | |- context [(gzip_open_pickle_load ?p ≫= _) ?w0] =>
        destruct (load_raises w0 p L2) as (e & He & Hrun)
    end.
    erewrite bind_Raise; [|exact Hrun].
    eexists _, _; split; [reflexivity|]. left.
    split; [right; by apply stored_mapping_loaded_None|].
    split; [reflexivity|]. split; [done|].
    split; [done|]. by intros _ [? ?]. }
  erewrite bind_Return; [|by apply load_returns].
  destruct (size_of o2) as [n2|] eqn:S2; cycle 1.
  { erewrite bind_Raise; [|unfold len; by rewrite S2].
    eexists _, _; split; [reflexivity|]. left.
    split; [right; eauto using stored_mapping_not_names,
                     size_of_None_not_names|].
    split; [reflexivity|]. by repeat split. }
  erewrite bind_Return; [|unfold len; by rewrite S2].
  do 2 (erewrite bind_Return; [|reflexivity]).
  (* the two conversion loops *)
  destruct o1 as [m1|size1 why1|]; [| |done]; cycle 1.
  { erewrite bind_Raise; [|reflexivity].
    eexists _, _; split; [reflexivity|]. left.
    split; [left; eauto using stored_mapping_not_names|].
    split; [reflexivity|]. split; [done|].
    split; [done|]. intros _ _. apply shape_exn_not_LoadError. }
  erewrite bind_Return; [|reflexivity].
  destruct o2 as [m2|size2 why2|]; [| |done]; cycle 1.
  { erewrite bind_Raise; [|reflexivity].
    eexists _, _; split; [reflexivity|]. left.
    split; [right; eauto using stored_mapping_not_names|].
    split; [reflexivity|]. split; [done|].
    split; [done|]. intros _ _. apply shape_exn_not_LoadError. }
  erewrite bind_Return; [|reflexivity].
  assert (stored_mapping w first_path = Some m1) as H1
    by by apply stored_mapping_Some.
  assert (stored_mapping w last_path = Some m2) as H2
    by by apply stored_mapping_Some.
  simpl in S1, S2. injection S1 as <-. injection S2 as <-.
  erewrite bind_Return; [|reflexivity].
  (* the three uncompressed files *)
  destruct (writable (output_dir // "first_names.pb")) eqn:Wf; cycle 1.
  { erewrite bind_Raise; [|by apply open_wb_raises]. permission_denied. }
  erewrite bind_Return; [|by apply open_wb_returns].
  destruct (writable (output_dir // "last_names.pb")) eqn:Wl; cycle 1.
  { erewrite bind_Raise; [|by apply open_wb_raises]. permission_denied. }
  erewrite bind_Return; [|by apply open_wb_returns].
  destruct (writable (output_dir // "combined_names.pb")) eqn:Wc; cycle 1.
  { erewrite bind_Raise; [|by apply open_wb_raises]. permission_denied. }
  erewrite bind_Return; [|by apply open_wb_returns].
  erewrite bind_Return; [|reflexivity].
  cbn [for_each].
  match goal with |- context [_ ?w0 = (_, _)] => set (w3 := w0) end.
  pose (F := NameDataset_SerializeToString (convert_first m1)).
  pose (L := NameDataset_SerializeToString (convert_last m2)).
  pose (C := CombinedNameDataset_SerializeToString
               (mkCombined (convert_first m1) (convert_last m2))).
  assert (files w3 = <[output_dir // "combined_names.pb" := C]>
            (<[output_dir // "last_names.pb" := L]>
               (<[output_dir // "first_names.pb" := F]> (files w)))) as Hw3
    by reflexivity.
  clearbody w3.
  (* compressing them *)
  assert (files w3 !! (output_dir // "first_names.pb") = Some F) as Hf.
  { rewrite Hw3. rewrite !lookup_insert_ne by path_neq.
    by rewrite lookup_insert_eq. }
  destruct (writable (output_dir // "first_names.pb.gz")) eqn:Wfz; cycle 1.
  { destruct (compress_and_write_raises "first_names.pb" F w3 Hf Wfz)
      as (w4 & Hrun4 & _).
    erewrite bind_Raise; cycle 1.
    { erewrite bind_Raise; [|exact Hrun4]. reflexivity. }
    permission_denied. }
  destruct (compress_and_write_returns "first_names.pb" F w3 Hf Wfz)
    as (w4 & Hrun4 & Hw4).
  assert (files w4 !! (output_dir // "last_names.pb") = Some L) as Hl.
  { rewrite Hw4, lookup_compressed_other, Hw3 by path_neq.
    rewrite lookup_insert_ne by path_neq. by rewrite lookup_insert_eq. }
  destruct (writable (output_dir // "last_names.pb.gz")) eqn:Wlz; cycle 1.
  { destruct (compress_and_write_raises "last_names.pb" L w4 Hl Wlz)
      as (w5 & Hrun5 & _).
    erewrite bind_Raise; cycle 1.
    { erewrite bind_Return; [|exact Hrun4].
      erewrite bind_Raise; [|exact Hrun5]. reflexivity. }
    permission_denied. }
  destruct (compress_and_write_returns "last_names.pb" L w4 Hl Wlz)
    as (w5 & Hrun5 & Hw5).
  assert (files w5 !! (output_dir // "combined_names.pb") = Some C) as Hc.
  { rewrite Hw5, lookup_compressed_other, Hw4, lookup_compressed_other, Hw3
      by path_neq.
    by rewrite lookup_insert_eq. }
  destruct (writable (output_dir // "combined_names.pb.gz")) eqn:Wcz; cycle 1.
  { destruct (compress_and_write_raises "combined_names.pb" C w5 Hc Wcz)
      as (w6 & Hrun6 & _).
    erewrite bind_Raise; cycle 1.
    { erewrite bind_Return; [|exact Hrun4].
      erewrite bind_Return; [|exact Hrun5].
      erewrite bind_Raise; [|exact Hrun6]. reflexivity. }
    permission_denied. }
  destruct (compress_and_write_returns "combined_names.pb" C w5 Hc Wcz)
    as (w6 & Hrun6 & Hw6).
  erewrite bind_Return; cycle 1.
  { erewrite bind_Return; [|exact Hrun4].
    erewrite bind_Return; [|exact Hrun5].
    erewrite bind_Return; [|exact Hrun6].
    reflexivity. }
  erewrite bind_Return; [|reflexivity].
  (* reporting the sizes *)
  match goal with |- context [_ ?w0 = (_, _)] => set (w7 := w0) end.
  assert (files w7 = files w6) as Hw7 by reflexivity. clearbody w7.
  destruct (print_size_returns "first_names.pb.gz"
              (gzip_compress (output_dir // "first_names.pb.gz") F) w7)
    as (w8 & Hrun8 & Hw8).
  { rewrite Hw7, Hw6, lookup_compressed_other, Hw5, lookup_compressed_other,
      Hw4 by path_neq.
    apply (lookup_compressed_gz _ "first_names.pb"). }
  destruct (print_size_returns "last_names.pb.gz"
              (gzip_compress (output_dir // "last_names.pb.gz") L) w8)
    as (w9 & Hrun9 & Hw9).
  { rewrite Hw8, Hw7, Hw6, lookup_compressed_other, Hw5 by path_neq.
    apply (lookup_compressed_gz _ "last_names.pb"). }
  destruct (print_size_returns "combined_names.pb.gz"
              (gzip_compress (output_dir // "combined_names.pb.gz") C) w9)
    as (w10 & Hrun10 & Hw10).
  { rewrite Hw9, Hw8, Hw7, Hw6.
    apply (lookup_compressed_gz _ "combined_names.pb"). }
  erewrite bind_Return; cycle 1.
  { erewrite bind_Return; [|exact Hrun8].
    erewrite bind_Return; [|exact Hrun9].
    erewrite bind_Return; [|exact Hrun10].
    reflexivity. }
  erewrite bind_Return; [|reflexivity].
  eexists _, _; split; [reflexivity|]. split; [done|].
  exists m1, m2. split; [done|]. split; [done|]. split.
  - unfold destinations. rewrite !fmap_cons, !Forall_cons. by rewrite Forall_nil.
  - simpl. rewrite Hw10, Hw9, Hw8, Hw7, Hw6, Hw5, Hw4, Hw3. reflexivity.
Qed.

Lemma export_without_bindings w :
  export_to_protobuf false base_path output_dir writable w
  = (Return false,
     {| files := files w;
        stdout := stdout w ++ [Text "Error: protobuf classes not found. Please run protoc to generate Python classes first."];
        calls := calls w |}).
Proof. reflexivity. Qed.

Lemma export_complete w m1 m2 :
  stored_mapping w first_path = Some m1 →
  stored_mapping w last_path = Some m2 →
  Forall (λ p, writable p = true) (destinations output_dir) →
  ∃ w', export_to_protobuf true base_path output_dir writable w = (Return true, w') ∧
        files w' = exported_files output_dir (files w) m1 m2.
Proof.
  intros H1 H2 Hw.
  destruct (export_outcome w) as (r & w' & Hrun & Hr).
  destruct r as [b|e].
  - destruct Hr as (-> & m1' & m2' & H1' & H2' & _ & Hfiles).
    exists w'. split; [done|]. congruence.
  - destruct Hr as [([Hn | Hn] & _) | (p & _ & Hp & Hden & _)];
      [congruence | congruence |].
    rewrite Forall_forall in Hw. specialize (Hw p Hp). congruence.
Qed.

Lemma export_True_inv importable w w' :
  export_to_protobuf importable base_path output_dir writable w = (Return true, w') →
  ∃ m1 m2, stored_mapping w first_path = Some m1 ∧
           stored_mapping w last_path = Some m2 ∧
           files w' = exported_files output_dir (files w) m1 m2.
Proof.
  destruct importable; [|by rewrite export_without_bindings].
  destruct (export_outcome w) as (r & w1 & Hrun & Hr).
  rewrite Hrun. intros [= -> ->].
  destruct Hr as (_ & m1 & m2 & H1 & H2 & _ & Hfiles). by exists m1, m2.
Qed.

(** The three compressed files a complete run leaves behind. *)
Lemma exported_files_outputs fs m1 m2 :
  let fs' := exported_files output_dir fs m1 m2 in
  fs' !! (output_dir // "first_names.pb.gz")
  = Some (gzip_compress (output_dir // "first_names.pb.gz")
            (NameDataset_SerializeToString (convert_first m1))) ∧
  fs' !! (output_dir // "last_names.pb.gz")
  = Some (gzip_compress (output_dir // "last_names.pb.gz")
            (NameDataset_SerializeToString (convert_last m2))) ∧
  fs' !! (output_dir // "combined_names.pb.gz")
  = Some (gzip_compress (output_dir // "combined_names.pb.gz")
            (CombinedNameDataset_SerializeToString
               (mkCombined (convert_first m1) (convert_last m2)))).
Proof.
  unfold exported_files; cbv zeta. repeat split.
  - rewrite !lookup_compressed_other by path_neq.
    apply (lookup_compressed_gz _ "first_names.pb").
  - rewrite lookup_compressed_other by path_neq.
    apply (lookup_compressed_gz _ "last_names.pb").
  - apply (lookup_compressed_gz _ "combined_names.pb").
Qed.

(** The uncompressed files are gone, and nothing else was touched. *)
Lemma exported_files_uncompressed fs m1 m2 filename :
  filename ∈ ["first_names.pb"; "last_names.pb"; "combined_names.pb"] →
  exported_files output_dir fs m1 m2 !! (output_dir // filename) = None.
Proof.
  rewrite !elem_of_cons, elem_of_nil. unfold exported_files; cbv zeta.
  intros [-> | [-> | [-> | []]]].
  - rewrite !lookup_compressed_other by path_neq.
    apply lookup_compressed_src.
  - rewrite lookup_compressed_other by path_neq.
    apply lookup_compressed_src.
  - apply lookup_compressed_src.
Qed.

Lemma exported_files_frame fs m1 m2 path :
  path ∉ destinations output_dir →
  exported_files output_dir fs m1 m2 !! path = fs !! path.
Proof.
  unfold destinations. rewrite !fmap_cons, !not_elem_of_cons.
  intros (Hf & Hl & Hc & Hfz & Hlz & Hcz & _).
  unfold exported_files; cbv zeta.
  rewrite !lookup_compressed_other by done.
  by rewrite !lookup_insert_ne.
Qed.

Lemma default_lookup_Some {A} (o : option (gmap string A)) k (x : A) :
  default ∅ o !! k = Some x ↔ ∃ m, o = Some m ∧ m !! k = Some x.
Proof.
  destruct o as [m|]; simpl.
  - split; [by exists m|]. by intros (m' & [= <-] & Hx).
  - rewrite lookup_empty. split; [done|]. by intros (m & ? & _).
Qed.

Lemma project_same_content (m : names_dict prob) : same_content m (project m).
Proof.
  apply project_Forall2. intros [n data]; simpl.
  split; [done|]. split; [|split].
  - intros c p. apply default_lookup_Some.
  - intros g p. apply default_lookup_Some.
  - intros c r. rewrite lookup_omap.
    destruct (d_rank data) as [rs|]; simpl.
    + destruct (rs !! c) as [[r'|]|] eqn:Hc; simpl.
      * split; [intros [= <-]; by exists rs|].
        intros (rs' & [= <-] & Hr). congruence.
      * split; [done|]. intros (rs' & [= <-] & Hr). congruence.
      * split; [done|]. intros (rs' & [= <-] & Hr). congruence.
    + rewrite lookup_empty; simpl. split; [done|]. by intros (rs & ? & _).
Qed.

(** ** The claims about a run *)

(** C1: when both input files load (to [m1] and [m2]) and the output
    paths can be written, the run returns [True], and gunzipping and
    parsing [first_names.pb.gz] and [last_names.pb.gz] gives datasets that
    reproduce [m1] and [m2]: the same names (in the same order), and for
    every name the same country map, the same gender map and exactly the
    non-null ranks. *)
Theorem output_roundtrip w m1 m2 :
  stored_mapping w first_path = Some m1 →
  stored_mapping w last_path = Some m2 →
  Forall (λ p, writable p = true) (destinations output_dir) →
  ∃ w' d1 d2,
    export_to_protobuf true base_path output_dir writable w = (Return true, w') ∧
    decode_dataset w' (output_dir // "first_names.pb.gz") = Some d1 ∧
    decode_dataset w' (output_dir // "last_names.pb.gz") = Some d2 ∧
    name <$> entries d1 = m1.*1 ∧ same_content m1 d1 ∧
    name <$> entries d2 = m2.*1 ∧ same_content m2 d2.
Proof.
  intros H1 H2 Hw.
  destruct (export_complete w m1 m2 H1 H2 Hw) as (w' & Hrun & Hfiles).
  destruct (exported_files_outputs (files w) m1 m2) as (Hf & Hl & _).
  exists w', (project m1), (project m2). split; [done|].
  unfold decode_dataset. rewrite Hfiles, Hf, Hl; simpl.
  rewrite !gzip_decompress_compress; simpl.
  rewrite !NameDataset_FromString_SerializeToString.
  rewrite convert_first_project, convert_last_project.
  repeat split; auto using project_same_content;
    unfold project; simpl; by rewrite <- list_fmap_compose.
Qed.

(** C4: after a run that returned [True], the combined file decodes to a
    message whose [first_names] and [last_names] are the datasets that
    [first_names.pb.gz] and [last_names.pb.gz] decode to, and the bytes
    in those two files are the serialisations of its two parts. *)
Theorem combined_matches_individual importable w w' :
  export_to_protobuf importable base_path output_dir writable w = (Return true, w') →
  ∃ combined d1 d2 raw1 raw2,
    decode_combined w' (output_dir // "combined_names.pb.gz") = Some combined ∧
    decode_dataset w' (output_dir // "first_names.pb.gz") = Some d1 ∧
    decode_dataset w' (output_dir // "last_names.pb.gz") = Some d2 ∧
    first_names combined = d1 ∧ last_names combined = d2 ∧
    files w' !! (output_dir // "first_names.pb.gz") = Some raw1 ∧
    gzip_decompress raw1
    = Some (NameDataset_SerializeToString (first_names combined)) ∧
    files w' !! (output_dir // "last_names.pb.gz") = Some raw2 ∧
    gzip_decompress raw2
    = Some (NameDataset_SerializeToString (last_names combined)).
Proof.
  intros (m1 & m2 & _ & _ & Hfiles)%export_True_inv.
  destruct (exported_files_outputs (files w) m1 m2) as (Hf & Hl & Hc).
  rewrite <- Hfiles in Hf, Hl, Hc.
  eexists (mkCombined (convert_first m1) (convert_last m2)), _, _, _, _.
  unfold decode_combined, decode_dataset. rewrite Hf, Hl, Hc; simpl.
  rewrite !gzip_decompress_compress; simpl.
  rewrite !NameDataset_FromString_SerializeToString.
  rewrite CombinedNameDataset_FromString_SerializeToString.
  repeat split; reflexivity.
Qed.


(** C6: when the bindings cannot be imported the run prints the fatal
    message and returns [False]; it has issued no file-system call (no
    read, no write), and every file is as it was. *)
Theorem missing_bindings_before_io w :
  ∃ w',
    export_to_protobuf false base_path output_dir writable w
    = (Return false, w') ∧
        calls w' = calls w ∧
        files w' = files w ∧
        stdout w' = (stdout w ++ [Text "Error: protobuf classes not found. Please run protoc to generate Python classes first."])%list.
Proof. eexists. rewrite export_without_bindings. by repeat split. Qed.

(** C8: when the compression step for [filename] returns, the
    uncompressed file held some [data], the compressed file now holds the
    compression of exactly [data] (and decompresses to it), the
    uncompressed file is gone, and every other path is as before. *)
Theorem compress_and_write_effect filename w w' :
  compress_and_write output_dir writable filename w = (Return (), w') →
  ∃ data,
    files w !! (output_dir // filename) = Some data ∧
    files w' !! (output_dir // (filename +:+ ".gz"))
    = Some (gzip_compress (output_dir // (filename +:+ ".gz")) data) ∧
    gzip_decompress (gzip_compress (output_dir // (filename +:+ ".gz")) data)
    = Some data ∧
    files w' !! (output_dir // filename) = None ∧
    ∀ path, path ≠ output_dir // filename →
            path ≠ output_dir // (filename +:+ ".gz") →
            files w' !! path = files w !! path.
Proof.
  intros Hrun.
  destruct (files w !! (output_dir // filename)) as [data|] eqn:Hdata; cycle 1.
  { revert Hrun. unfold compress_and_write.
    erewrite bind_Raise; [done|].
    unfold open_rb; simpl. by rewrite Hdata. }
  destruct (writable (output_dir // (filename +:+ ".gz"))) eqn:Hw; cycle 1.
  { destruct (compress_and_write_raises filename data w Hdata Hw)
      as (w1 & Hrun1 & _). congruence. }
  destruct (compress_and_write_returns filename data w Hdata Hw)
    as (w1 & Hrun1 & Hfiles).
  assert (w1 = w') as -> by congruence.
  exists data. rewrite Hfiles. split; [done|].
  split; [apply lookup_compressed_gz|].
  split; [apply gzip_decompress_compress|].
  split; [apply lookup_compressed_src|].
  intros path Hsrc Hgz. by apply lookup_compressed_other.
Qed.

(** C10: the run returns [False] exactly when the bindings cannot be
    imported; with the bindings in place a run that returns returns
    [True], and a load failure or an output path that cannot be written
    ends the run with an exception, not with a return value. *)
Theorem false_only_without_bindings :
  (∀ importable w,
     (∃ w', export_to_protobuf importable base_path output_dir writable w
            = (Return false, w')) ↔
     importable = false) ∧
  (∀ w b w',
     export_to_protobuf true base_path output_dir writable w = (Return b, w') →
     b = true) ∧
  (∀ w,
     stored_mapping w first_path = None ∨
     stored_mapping w last_path = None ∨
     (∃ p, p ∈ destinations output_dir ∧ writable p = false) →
     ∃ e w', export_to_protobuf true base_path output_dir writable w = (Raise e, w')).
Proof.
  split; [|split].
  - intros importable w. split.
    + intros [w' Hrun]. destruct importable; [|done].
      destruct (export_outcome w) as (r & w1 & Hrun1 & Hr).
      rewrite Hrun in Hrun1. injection Hrun1 as <- <-.
      by destruct Hr as [? _].
    + intros ->. eexists. apply export_without_bindings.
  - intros w b w' Hrun.
    destruct (export_outcome w) as (r & w1 & Hrun1 & Hr).
    rewrite Hrun in Hrun1. injection Hrun1 as <- <-.
    by destruct Hr as [? _].
  - intros w Hfail.
    destruct (export_outcome w) as (r & w' & Hrun & Hr).
    destruct r as [b|e]; [|by exists e, w'].
    destruct Hr as (_ & m1 & m2 & H1 & H2 & Hw & _).
    destruct Hfail as [? | [? | (p & Hp & Hden)]]; [congruence..|].
    rewrite Forall_forall in Hw. specialize (Hw p Hp). congruence.
Qed.

End ScriptFacts.

(** ** The model of the libraries meets the contracts *)

Lemma bytes_to_pos_to_bytes p :
  Reference.bytes_to_pos (Reference.pos_to_bytes p) = Some p.
Proof. induction p as [p IH|p IH|]; simpl; by rewrite ?IH. Qed.

Lemma loads_dumps `{Countable A} (a : A) :
  Reference.loads (Reference.dumps a) = Some a.
Proof.
  unfold Reference.loads, Reference.dumps.
  rewrite bytes_to_pos_to_bytes; simpl. apply decode_encode.
Qed.

Import Reference.

#[export] Instance reference_libraries `{Countable prob} : Libraries prob := {|
  gzip_compress := Reference.compress;
  gzip_decompress := Reference.decompress;
  gzip_decompress_compress := λ _ _, eq_refl;
  pickle_load := Reference.loads;
  NameDataset_SerializeToString := Reference.dumps;
  NameDataset_FromString := Reference.loads;
  NameDataset_FromString_SerializeToString := loads_dumps;
  CombinedNameDataset_SerializeToString := Reference.dumps;
  CombinedNameDataset_FromString := Reference.loads;
  CombinedNameDataset_FromString_SerializeToString := loads_dumps;
|}.

Section ReferenceRuns.

Lemma with_inputs_first : stored_mapping with_inputs first_path = Some alice.
Proof.
  unfold stored_mapping, loaded, with_inputs; simpl.
  rewrite lookup_insert_eq; simpl. by rewrite loads_dumps.
Qed.

Lemma with_inputs_last : stored_mapping with_inputs last_path = Some smith.
Proof.
  unfold stored_mapping, loaded, with_inputs; simpl.
  rewrite lookup_insert_ne by (unfold first_path, last_path; path_neq).
  rewrite lookup_singleton_eq; simpl. by rewrite loads_dumps.
Qed.

Lemma all_writable : Forall (λ p, writable p = true) (destinations output_dir).
Proof. apply Forall_forall. done. Qed.

(** A witness of C1: the run on [with_inputs]. *)
Lemma output_roundtrip_witness :
  stored_mapping with_inputs first_path = Some alice ∧
  stored_mapping with_inputs last_path = Some smith ∧
  Forall (λ p, writable p = true) (destinations output_dir) ∧
  ∃ w' d1 d2,
    export_to_protobuf (prob := Z) true base_path output_dir writable
      with_inputs = (Return true, w') ∧
    decode_dataset w' (output_dir // "first_names.pb.gz") = Some d1 ∧
    decode_dataset w' (output_dir // "last_names.pb.gz") = Some d2 ∧
    name <$> entries d1 = alice.*1 ∧ same_content alice d1 ∧
    name <$> entries d2 = smith.*1 ∧ same_content smith d2.
Proof.
  split; [exact with_inputs_first|].
  split; [exact with_inputs_last|].
  split; [exact all_writable|].
  exact (output_roundtrip base_path output_dir writable with_inputs
           alice smith with_inputs_first with_inputs_last all_writable).
Defined.

(** A witness of C4: the run on [with_inputs] returns [True]. *)
Lemma combined_matches_individual_witness :
  ∃ w',
    export_to_protobuf (prob := Z) true base_path output_dir writable
      with_inputs = (Return true, w') ∧
    ∃ (combined : CombinedNameDataset Z) d1 d2 raw1 raw2,
      decode_combined w' (output_dir // "combined_names.pb.gz")
      = Some combined ∧
      decode_dataset w' (output_dir // "first_names.pb.gz") = Some d1 ∧
      decode_dataset w' (output_dir // "last_names.pb.gz") = Some d2 ∧
      first_names combined = d1 ∧ last_names combined = d2 ∧
      files w' !! (output_dir // "first_names.pb.gz") = Some raw1 ∧
      gzip_decompress (prob := Z) raw1
      = Some (NameDataset_SerializeToString (first_names combined)) ∧
      files w' !! (output_dir // "last_names.pb.gz") = Some raw2 ∧
      gzip_decompress (prob := Z) raw2
      = Some (NameDataset_SerializeToString (last_names combined)).
Proof.
  destruct (export_complete base_path output_dir writable with_inputs
              alice smith with_inputs_first with_inputs_last all_writable)
    as (w' & Hrun & _).
  exists w'. split; [exact Hrun|].
  exact (combined_matches_individual base_path output_dir writable
           true with_inputs w' Hrun).
Defined.

(** A witness of C8: compressing [first_names.pb] in a world that holds
    it. *)
Lemma compress_and_write_effect_witness :
  ∃ w', compress_and_write (prob := Z) output_dir writable "first_names.pb"
          with_uncompressed = (Return (), w') ∧
    ∃ data,
      files with_uncompressed !! (output_dir // "first_names.pb") = Some data ∧
      files w' !! (output_dir // "first_names.pb.gz")
      = Some (gzip_compress (prob := Z)
                (output_dir // "first_names.pb.gz") data) ∧
      gzip_decompress (prob := Z)
        (gzip_compress (prob := Z)
           (output_dir // "first_names.pb.gz") data)
      = Some data ∧
      files w' !! (output_dir // "first_names.pb") = None ∧
      ∀ path, path ≠ output_dir // "first_names.pb" →
              path ≠ output_dir // "first_names.pb.gz" →
              files w' !! path = files with_uncompressed !! path.
Proof.
  eexists. split; [reflexivity|].
  exact (compress_and_write_effect output_dir writable "first_names.pb"
           with_uncompressed _ eq_refl).
Defined.

End ReferenceRuns.

(** * More about the script *)

(** ** Which files a statement can touch *)

Section Frame.
Context {prob : Type} `{!Libraries prob}.
Variable allowed : string → Prop.

Lemma touches_only_ret {A} (a : A) : touches_only allowed (mret a).
Proof. by intros w path _. Qed.

Lemma touches_only_raise {A} e : touches_only allowed (raise (A := A) e).
Proof. by intros w path _. Qed.

Lemma touches_only_print l : touches_only allowed (print l).
Proof. by intros w path _. Qed.

Lemma touches_only_bind {A B} (c : IO A) (k : A → IO B) :
  touches_only allowed c → (∀ a, touches_only allowed (k a)) →
  touches_only allowed (c ≫= k).
Proof.
  intros Hc Hk w path Hpath. specialize (Hc w path Hpath).
  unfold mbind, IO_bind. destruct (c w) as [[a|e] w1]; simpl in *; [|done].
  by rewrite Hk.
Qed.

Lemma touches_only_open_rb path : touches_only allowed (open_rb path).
Proof.
  intros w p _. unfold open_rb; simpl. by destruct (files w !! path).
Qed.

Lemma touches_only_stat path : touches_only allowed (stat_st_size path).
Proof.
  intros w p _. unfold stat_st_size; simpl. by destruct (files w !! path).
Qed.

Lemma touches_only_open_wb writable path data :
  allowed path → touches_only allowed (open_wb writable path data).
Proof.
  intros Hpath w p Hp. unfold open_wb; simpl.
  destruct (writable path); simpl; [|done].
  apply lookup_insert_ne. by intros ->.
Qed.

Lemma touches_only_unlink path :
  allowed path → touches_only allowed (unlink path).
Proof.
  intros Hpath w p Hp. unfold unlink; simpl.
  destruct (files w !! path); simpl; [|done].
  apply lookup_delete_ne. by intros ->.
Qed.

Lemma touches_only_for_each {A} (xs : list A) (body : A → IO unit) :
  (∀ x, x ∈ xs → touches_only allowed (body x)) →
  touches_only allowed (for_each xs body).
Proof.
  induction xs as [|x xs IH]; intros Hbody; simpl.
  - apply touches_only_ret.
  - apply touches_only_bind; [apply Hbody; left|].
    intros _. apply IH. intros y Hy. apply Hbody. by right.
Qed.

Lemma touches_only_load path :
  touches_only allowed (gzip_open_pickle_load path).
Proof.
  unfold gzip_open_pickle_load.
  apply touches_only_bind; [apply touches_only_open_rb|].
  intros raw. destruct (gzip_decompress raw) as [stream|];
    [|apply touches_only_raise].
  destruct (pickle_load stream);
    [apply touches_only_ret | apply touches_only_raise].
Qed.

Lemma touches_only_len (obj : pyobj prob) : touches_only allowed (len obj).
Proof.
  unfold len. destruct (size_of obj);
    [apply touches_only_ret | apply touches_only_raise].
Qed.

Lemma touches_only_items (obj : pyobj prob) :
  touches_only allowed (items obj).
Proof.
  destruct obj; [apply touches_only_ret | apply touches_only_raise..].
Qed.

Lemma touches_only_compress_and_write output_dir writable filename :
  allowed (output_dir // filename) →
  allowed (output_dir // (filename +:+ ".gz")) →
  touches_only allowed (compress_and_write output_dir writable filename).
Proof.
  intros Hsrc Hgz. unfold compress_and_write.
  apply touches_only_bind; [apply touches_only_open_rb|]. intros data.
  apply touches_only_bind; [by apply touches_only_open_wb|]. intros _.
  by apply touches_only_unlink.
Qed.

Lemma touches_only_print_size output_dir filename :
  touches_only allowed (print_size output_dir filename).
Proof.
  unfold print_size.
  apply touches_only_bind; [apply touches_only_stat|]. intros size.
  apply touches_only_print.
Qed.

End Frame.

(** ** Input paths and output paths never meet *)

Lemma list_ascii_of_string_app (s t : string) :
  Stdlib.Strings.String.list_ascii_of_string (s +:+ t)
  = (Stdlib.Strings.String.list_ascii_of_string s ++ Stdlib.Strings.String.list_ascii_of_string t)%list.
Proof. induction s as [|a s IH]; simpl; [done|]. by rewrite IH. Qed.

(** Two strings that end in different words of the same length differ. *)
Lemma suffix_neq (s t p q x y : string) :
  String.length x = String.length y → x ≠ y →
  s +:+ (p +:+ x) ≠ t +:+ (q +:+ y).
Proof.
  intros Hlen Hxy Heq. apply Hxy.
  apply (f_equal Stdlib.Strings.String.list_ascii_of_string) in Heq.
  rewrite !list_ascii_of_string_app, !(assoc_L (++)%list) in Heq.
  apply app_inj_2 in Heq as [_ Heq].
  - rewrite <- (Stdlib.Strings.String.string_of_list_ascii_of_string x),
      <- (Stdlib.Strings.String.string_of_list_ascii_of_string y). by rewrite Heq.
  - clear Heq Hxy. revert y Hlen.
    induction x as [|a x IH]; intros [|b y]; simpl; intros Hlen;
      try done. f_equal. apply IH. by injection Hlen.
Qed.

Lemma first_path_not_destination base_path output_dir :
  base_path // "names_dataset/v3/first_names.pkl.gz"
  ∉ destinations output_dir.
Proof.
  unfold destinations. rewrite !fmap_cons, !not_elem_of_cons.
  repeat split; try apply not_elem_of_nil.
  - exact (suffix_neq base_path output_dir
             "/names_dataset/v3/first_names" "/first_n"
             ".pkl.gz" "ames.pb" eq_refl ltac:(discriminate)).
  - exact (suffix_neq base_path output_dir
             "/names_dataset/v3/first_names" "/last_n"
             ".pkl.gz" "ames.pb" eq_refl ltac:(discriminate)).
  - exact (suffix_neq base_path output_dir
             "/names_dataset/v3/first_names" "/combined_n"
             ".pkl.gz" "ames.pb" eq_refl ltac:(discriminate)).
  - exact (suffix_neq base_path output_dir
             "/names_dataset/v3/first_names" "/first_name"
             ".pkl.gz" "s.pb.gz" eq_refl ltac:(discriminate)).
  - exact (suffix_neq base_path output_dir
             "/names_dataset/v3/first_names" "/last_name"
             ".pkl.gz" "s.pb.gz" eq_refl ltac:(discriminate)).
  - exact (suffix_neq base_path output_dir
             "/names_dataset/v3/first_names" "/combined_name"
             ".pkl.gz" "s.pb.gz" eq_refl ltac:(discriminate)).
Qed.

Lemma last_path_not_destination base_path output_dir :
  base_path // "names_dataset/v3/last_names.pkl.gz"
  ∉ destinations output_dir.
Proof.
  unfold destinations. rewrite !fmap_cons, !not_elem_of_cons.
  repeat split; try apply not_elem_of_nil.
  - exact (suffix_neq base_path output_dir
             "/names_dataset/v3/last_names" "/first_n"
             ".pkl.gz" "ames.pb" eq_refl ltac:(discriminate)).
  - exact (suffix_neq base_path output_dir
             "/names_dataset/v3/last_names" "/last_n"
             ".pkl.gz" "ames.pb" eq_refl ltac:(discriminate)).
  - exact (suffix_neq base_path output_dir
             "/names_dataset/v3/last_names" "/combined_n"
             ".pkl.gz" "ames.pb" eq_refl ltac:(discriminate)).
  - exact (suffix_neq base_path output_dir
             "/names_dataset/v3/last_names" "/first_name"
             ".pkl.gz" "s.pb.gz" eq_refl ltac:(discriminate)).
  - exact (suffix_neq base_path output_dir
             "/names_dataset/v3/last_names" "/last_name"
             ".pkl.gz" "s.pb.gz" eq_refl ltac:(discriminate)).
  - exact (suffix_neq base_path output_dir
             "/names_dataset/v3/last_names" "/combined_name"
             ".pkl.gz" "s.pb.gz" eq_refl ltac:(discriminate)).
Qed.

Section RunFrame.
Context {prob : Type} `{!Libraries prob}.
Variables (base_path output_dir : string) (writable : string → bool).

Lemma export_touches_only importable :
  touches_only (λ path, path ∈ destinations output_dir)
    (export_to_protobuf importable base_path output_dir writable).
Proof.
  assert (∀ name,
    name ∈ ["first_names.pb"; "last_names.pb"; "combined_names.pb";
            "first_names.pb.gz"; "last_names.pb.gz"; "combined_names.pb.gz"] →
    output_dir // name ∈ destinations output_dir) as Hdest.
  { intros name Hname. unfold destinations. by apply list_elem_of_fmap_2. }
  unfold export_to_protobuf. destruct importable; cbn [negb].
  - repeat first
      [ apply touches_only_print
      | apply touches_only_ret
      | apply touches_only_load
      | apply touches_only_len
      | apply touches_only_items
      | apply touches_only_open_wb; apply Hdest; repeat constructor
      | apply touches_only_for_each; intros name Hname;
        first
          [ apply touches_only_print_size
          | apply touches_only_compress_and_write; apply Hdest;
            rewrite !elem_of_cons, elem_of_nil in Hname;
            destruct Hname as [-> | [-> | [-> | []]]]; repeat constructor ]
      | apply touches_only_bind; [|intros ?] ].
  - apply touches_only_bind; [apply touches_only_print|].
    intros _. apply touches_only_ret.
Qed.


(** X2: no run changes its two input files, for any place of the
    repository and of the script and however the run ends. *)
Theorem export_keeps_inputs importable w :
  let w' :=
    (export_to_protobuf importable base_path output_dir writable w).2 in
  files w' !! (base_path // "names_dataset/v3/first_names.pkl.gz")
  = files w !! (base_path // "names_dataset/v3/first_names.pkl.gz") ∧
  files w' !! (base_path // "names_dataset/v3/last_names.pkl.gz")
  = files w !! (base_path // "names_dataset/v3/last_names.pkl.gz").
Proof.
  split; apply export_touches_only.
  - apply first_path_not_destination.
  - apply last_path_not_destination.
Qed.

End RunFrame.

(** ** What a run prints and which calls it issues *)

Section RunTraces.
Context {prob : Type} `{!Libraries prob}.
Variables (base_path output_dir : string) (writable : string → bool).

Local Abbreviation first_path :=
  (base_path // "names_dataset/v3/first_names.pkl.gz").
Local Abbreviation last_path :=
  (base_path // "names_dataset/v3/last_names.pkl.gz").

Lemma bind_assoc_at {A B C} (c : IO A) (f : A → IO B) (g : B → IO C) w :
  ((c ≫= f) ≫= g) w = (c ≫= (λ a, f a ≫= g)) w.
Proof. unfold mbind, IO_bind. by destruct (c w) as [[a|e] w1]. Qed.

Lemma compress_and_write_world filename data w :
  files w !! (output_dir // filename) = Some data →
  writable (output_dir // (filename +:+ ".gz")) = true →
  compress_and_write output_dir writable filename w
  = (Return (),
     {| files := compressed output_dir (files w) filename data;
        stdout := stdout w;
        calls := calls w ++ [OpenRead (output_dir // filename);
                             OpenWrite (output_dir // (filename +:+ ".gz"));
                             Unlink (output_dir // filename)] |}).
Proof.
  intros Hdata Hw. unfold compress_and_write.
  erewrite bind_Return; cycle 1.
  { unfold open_rb; simpl. by rewrite Hdata. }
  erewrite bind_Return; cycle 1.
  { by apply open_wb_returns. }
  unfold unlink; simpl.
  rewrite lookup_insert_ne by path_neq. rewrite Hdata.
  unfold set_files, compressed; simpl. by rewrite <- !app_assoc.
Qed.

Lemma print_size_world filename data w :
  files w !! (output_dir // filename) = Some data →
  print_size output_dir filename w
  = (Return (),
     {| files := files w;
        stdout := stdout w ++ [FileSize filename (length data)];
        calls := calls w ++ [Stat (output_dir // filename)] |}).
Proof.
  intros Hdata. unfold print_size.
  erewrite bind_Return; cycle 1.
  { unfold stat_st_size; simpl. by rewrite Hdata. }
  reflexivity.
Qed.

Lemma export_complete_world w m1 m2 :
  stored_mapping w first_path = Some m1 →
  stored_mapping w last_path = Some m2 →
  Forall (λ p, writable p = true) (destinations output_dir) →
  let F := NameDataset_SerializeToString (convert_first m1) in
  let L := NameDataset_SerializeToString (convert_last m2) in
  let C := CombinedNameDataset_SerializeToString
             (mkCombined (convert_first m1) (convert_last m2)) in
  export_to_protobuf true base_path output_dir writable w
  = (Return true,
     {| files := exported_files output_dir (files w) m1 m2;
        stdout := stdout w ++
          [Text "Loading pickle files...";
           Loaded (length m1) "first names";
           Loaded (length m2) "last names";
           Text "Converting to protobuf format...";
           Text "Writing protobuf files...";
           Text "Compressing files...";
           Text (newline +:+ "Generated files:");
           FileSize "first_names.pb.gz"
             (length (gzip_compress (output_dir // "first_names.pb.gz") F));
           FileSize "last_names.pb.gz"
             (length (gzip_compress (output_dir // "last_names.pb.gz") L));
           FileSize "combined_names.pb.gz"
             (length (gzip_compress (output_dir // "combined_names.pb.gz") C));
           Text "Export complete!"];
        calls := calls w ++
          [OpenRead first_path; OpenRead last_path;
           OpenWrite (output_dir // "first_names.pb");
           OpenWrite (output_dir // "last_names.pb");
           OpenWrite (output_dir // "combined_names.pb");
           OpenRead (output_dir // "first_names.pb");
           OpenWrite (output_dir // "first_names.pb.gz");
           Unlink (output_dir // "first_names.pb");
           OpenRead (output_dir // "last_names.pb");
           OpenWrite (output_dir // "last_names.pb.gz");
           Unlink (output_dir // "last_names.pb");
           OpenRead (output_dir // "combined_names.pb");
           OpenWrite (output_dir // "combined_names.pb.gz");
           Unlink (output_dir // "combined_names.pb");
           Stat (output_dir // "first_names.pb.gz");
           Stat (output_dir // "last_names.pb.gz");
           Stat (output_dir // "combined_names.pb.gz")] |}).
Proof.
  intros H1 H2 Hw F L C.
  unfold destinations in Hw. rewrite !fmap_cons, !Forall_cons in Hw.
  destruct Hw as (Wf & Wl & Wc & Wfz & Wlz & Wcz & _).
  unfold export_to_protobuf; cbn [negb].
  erewrite bind_Return; [|reflexivity].
  erewrite bind_Return; [|by apply load_names].
  do 2 (erewrite bind_Return; [|reflexivity]).
  erewrite bind_Return; [|by apply load_names].
  do 6 (erewrite bind_Return; [|reflexivity]).
  do 3 (erewrite bind_Return; [|by apply open_wb_returns]).
  erewrite bind_Return; [|reflexivity].
  cbn [for_each]. cbn [files stdout calls set_files record_call].
  rewrite bind_assoc_at.
  erewrite bind_Return; cycle 1.
  { apply (compress_and_write_world "first_names.pb" F); [|exact Wfz].
    cbn [files]. rewrite !lookup_insert_ne by path_neq.
    by rewrite lookup_insert_eq. }
  cbn [files stdout calls]. rewrite bind_assoc_at.
  erewrite bind_Return; cycle 1.
  { apply (compress_and_write_world "last_names.pb" L); [|exact Wlz].
    cbn [files]. rewrite lookup_compressed_other by path_neq.
    rewrite lookup_insert_ne by path_neq. by rewrite lookup_insert_eq. }
  cbn [files stdout calls]. rewrite bind_assoc_at.
  erewrite bind_Return; cycle 1.
  { apply (compress_and_write_world "combined_names.pb" C); [|exact Wcz].
    cbn [files]. rewrite !lookup_compressed_other by path_neq.
    by rewrite lookup_insert_eq. }
  cbn [files stdout calls].
  do 2 (erewrite bind_Return; [|reflexivity]).
  cbn [files stdout calls]. rewrite bind_assoc_at.
  erewrite bind_Return; cycle 1.
  { apply (print_size_world "first_names.pb.gz"
             (gzip_compress (output_dir // "first_names.pb.gz") F)).
    cbn [files]. rewrite !lookup_compressed_other by path_neq.
    apply (lookup_compressed_gz output_dir _ "first_names.pb"). }
  cbn [files stdout calls]. rewrite bind_assoc_at.
  erewrite bind_Return; cycle 1.
  { apply (print_size_world "last_names.pb.gz"
             (gzip_compress (output_dir // "last_names.pb.gz") L)).
    cbn [files]. rewrite lookup_compressed_other by path_neq.
    apply (lookup_compressed_gz output_dir _ "last_names.pb"). }
  cbn [files stdout calls]. rewrite bind_assoc_at.
  erewrite bind_Return; cycle 1.
  { apply (print_size_world "combined_names.pb.gz"
             (gzip_compress (output_dir // "combined_names.pb.gz") C)).
    cbn [files]. apply (lookup_compressed_gz output_dir _ "combined_names.pb"). }
  cbn [files stdout calls].
  do 2 (erewrite bind_Return; [|reflexivity]).
  unfold mret, IO_ret. f_equal.
  cbn [files stdout calls]. rewrite <- !app_assoc. reflexivity.
Qed.

Lemma export_True_world importable w w' :
  export_to_protobuf importable base_path output_dir writable w
  = (Return true, w') →
  ∃ m1 m2,
    stored_mapping w first_path = Some m1 ∧
    stored_mapping w last_path = Some m2 ∧
    export_to_protobuf true base_path output_dir writable w = (Return true, w') ∧
    Forall (λ p, writable p = true) (destinations output_dir).
Proof.
  destruct importable; [|by rewrite export_without_bindings].
  intros Hrun.
  destruct (export_outcome base_path output_dir writable w)
    as (r & w1 & Hrun1 & Hr).
  rewrite Hrun in Hrun1. injection Hrun1 as <- <-.
  destruct Hr as (_ & m1 & m2 & H1 & H2 & Hw & _). by exists m1, m2.
Qed.

(** X3: the console output of a run that returned [True]: eleven calls
    of [print] in order (the seventh prints the text of line 111, a
    newline and then [Generated files:], two lines on the console), the
    two counts being the numbers of names loaded from the two inputs,
    and the three sizes being the lengths of the three compressed files
    the run left on disk. *)
Theorem complete_run_transcript importable w w' :
  export_to_protobuf importable base_path output_dir writable w
  = (Return true, w') →
  ∃ m1 m2 raw1 raw2 raw3,
    stored_mapping w first_path = Some m1 ∧
    stored_mapping w last_path = Some m2 ∧
    files w' !! (output_dir // "first_names.pb.gz") = Some raw1 ∧
    files w' !! (output_dir // "last_names.pb.gz") = Some raw2 ∧
    files w' !! (output_dir // "combined_names.pb.gz") = Some raw3 ∧
    stdout w' = (stdout w ++
      [Text "Loading pickle files...";
       Loaded (length m1) "first names";
       Loaded (length m2) "last names";
       Text "Converting to protobuf format...";
       Text "Writing protobuf files...";
       Text "Compressing files...";
       Text (newline +:+ "Generated files:");
       FileSize "first_names.pb.gz" (length raw1);
       FileSize "last_names.pb.gz" (length raw2);
       FileSize "combined_names.pb.gz" (length raw3);
       Text "Export complete!"])%list.
Proof.
  intros (m1 & m2 & H1 & H2 & Hrun & Hw)%export_True_world.
  rewrite (export_complete_world w m1 m2 H1 H2 Hw) in Hrun.
  injection Hrun as <-.
  destruct (exported_files_outputs output_dir (files w) m1 m2)
    as (Hf & Hl & Hc).
  eexists m1, m2, _, _, _. cbn [files stdout].
  split; [done|]. split; [done|].
  split; [exact Hf|]. split; [exact Hl|]. split; [exact Hc|].
  reflexivity.
Qed.

(** X4: the file-system calls of a run that returned [True], in order:
    both inputs are read before anything is written, the three
    uncompressed files are written, then each of them is read, written
    compressed and only then removed, and last the three compressed files
    are measured. *)
Theorem complete_run_calls importable w w' :
  export_to_protobuf importable base_path output_dir writable w
  = (Return true, w') →
  calls w' = (calls w ++
    [OpenRead first_path; OpenRead last_path;
     OpenWrite (output_dir // "first_names.pb");
     OpenWrite (output_dir // "last_names.pb");
     OpenWrite (output_dir // "combined_names.pb");
     OpenRead (output_dir // "first_names.pb");
     OpenWrite (output_dir // "first_names.pb.gz");
     Unlink (output_dir // "first_names.pb");
     OpenRead (output_dir // "last_names.pb");
     OpenWrite (output_dir // "last_names.pb.gz");
     Unlink (output_dir // "last_names.pb");
     OpenRead (output_dir // "combined_names.pb");
     OpenWrite (output_dir // "combined_names.pb.gz");
     Unlink (output_dir // "combined_names.pb");
     Stat (output_dir // "first_names.pb.gz");
     Stat (output_dir // "last_names.pb.gz");
     Stat (output_dir // "combined_names.pb.gz")])%list.
Proof.
  intros (m1 & m2 & H1 & H2 & Hrun & Hw)%export_True_world.
  rewrite (export_complete_world w m1 m2 H1 H2 Hw) in Hrun.
  by injection Hrun as <-.
Qed.

(** X5: after a run that returned [True] none of the three uncompressed
    files exists, also when one of them existed before the run. *)
Theorem complete_run_removes_uncompressed importable w w' filename :
  export_to_protobuf importable base_path output_dir writable w
  = (Return true, w') →
  filename ∈ ["first_names.pb"; "last_names.pb"; "combined_names.pb"] →
  files w' !! (output_dir // filename) = None.
Proof.
  intros (m1 & m2 & _ & _ & ->)%export_True_inv Hname.
  by apply exported_files_uncompressed.
Qed.




(** The run up to the conversion loops, when the first object is no
    names mapping, and when the first is one and the second is not. *)
Lemma export_first_not_names w n1 why o2 n2 :
  loaded w first_path = Some (Sized n1 why) →
  loaded w last_path = Some o2 →
  size_of o2 = Some n2 →
  export_to_protobuf true base_path output_dir writable w
  = (Raise (shape_exn why),
     {| files := files w;
        stdout := stdout w ++ [Text "Loading pickle files...";
                               Loaded n1 "first names";
                               Loaded n2 "last names";
                               Text "Converting to protobuf format..."];
        calls := calls w ++ [OpenRead first_path; OpenRead last_path] |}).
Proof.
  intros H1 H2 S2. unfold export_to_protobuf; cbn [negb].
  erewrite bind_Return; [|reflexivity].
  erewrite bind_Return; [|by apply load_returns].
  do 2 (erewrite bind_Return; [|reflexivity]).
  erewrite bind_Return; [|by apply load_returns].
  erewrite bind_Return; [|unfold len; by rewrite S2].
  do 2 (erewrite bind_Return; [|reflexivity]).
  erewrite bind_Raise; [|reflexivity].
  unfold record_call; cbn [files stdout calls].
  by rewrite <- !app_assoc.
Qed.

Lemma export_last_not_names w m1 n2 why :
  loaded w first_path = Some (NamesDict m1) →
  loaded w last_path = Some (Sized n2 why) →
  export_to_protobuf true base_path output_dir writable w
  = (Raise (shape_exn why),
     {| files := files w;
        stdout := stdout w ++ [Text "Loading pickle files...";
                               Loaded (length m1) "first names";
                               Loaded n2 "last names";
                               Text "Converting to protobuf format..."];
        calls := calls w ++ [OpenRead first_path; OpenRead last_path] |}).
Proof.
  intros H1 H2. unfold export_to_protobuf; cbn [negb].
  erewrite bind_Return; [|reflexivity].
  erewrite bind_Return; [|by apply load_returns].
  do 2 (erewrite bind_Return; [|reflexivity]).
  erewrite bind_Return; [|by apply load_returns].
  do 4 (erewrite bind_Return; [|reflexivity]).
  erewrite bind_Raise; [|reflexivity].
  unfold record_call; cbn [files stdout calls].
  by rewrite <- !app_assoc.
Qed.

(** X13: when both inputs unpickle to objects with a length and one of
    them is no names mapping (a pickled list, for instance), the run
    gets as far as the conversion loops: it has printed both lengths and
    the conversion line, has opened the two inputs and no output path,
    has changed no file, and raises an exception that is no load
    exception, the one of the first object that is no names mapping. *)
Theorem conversion_failure_stops w o1 o2 n1 n2 :
  loaded w first_path = Some o1 →
  loaded w last_path = Some o2 →
  size_of o1 = Some n1 →
  size_of o2 = Some n2 →
  as_names o1 = None ∨ as_names o2 = None →
  ∃ e,
    export_to_protobuf true base_path output_dir writable w
    = (Raise e,
       {| files := files w;
          stdout := stdout w ++ [Text "Loading pickle files...";
                                 Loaded n1 "first names";
                                 Loaded n2 "last names";
                                 Text "Converting to protobuf format..."];
          calls := calls w ++ [OpenRead first_path; OpenRead last_path] |}) ∧
    LoadError e = false ∧
    (∀ why, o1 = Sized n1 why → e = shape_exn why) ∧
    (∀ m1 why, o1 = NamesDict m1 → o2 = Sized n2 why → e = shape_exn why).
Proof.
  intros H1 H2 S1 S2 Hbad.
  destruct o1 as [m1|size1 why1|]; [| |done]; simpl in S1;
    injection S1 as <-.
  - destruct o2 as [m2|size2 why2|]; [by destruct Hbad| |done].
    simpl in S2; injection S2 as <-.
    exists (shape_exn why2). split; [|split; [|split]].
    + by apply export_last_not_names.
    + apply shape_exn_not_LoadError.
    + done.
    + by intros m1' why _ [= <-].
  - exists (shape_exn why1). split; [|split; [|split]].
    + by apply (export_first_not_names w _ _ o2).
    + apply shape_exn_not_LoadError.
    + by intros why [= <-].
    + done.
Qed.

(** X14: when the first input unpickles to an object without a length,
    [len] raises [TypeError] right after the load: the run has made one
    call of [print], has opened the first input only and has changed no
    file. *)
Theorem unsized_first_input_stops w obj :
  loaded w first_path = Some obj →
  size_of obj = None →
  export_to_protobuf true base_path output_dir writable w
  = (Raise TypeError,
     {| files := files w;
        stdout := stdout w ++ [Text "Loading pickle files..."];
        calls := calls w ++ [OpenRead first_path] |}).
Proof.
  intros H1 Hn. unfold export_to_protobuf; cbn [negb].
  erewrite bind_Return; [|reflexivity].
  erewrite bind_Return; [|by apply load_returns].
  erewrite bind_Raise; [|unfold len; by rewrite Hn].
  reflexivity.
Qed.

(** X8: nothing is cleaned up when a write fails.  When
    [combined_names.pb] cannot be opened for writing the run raises
    [PermissionError] for it, and [first_names.pb] and [last_names.pb],
    written just before, stay on disk uncompressed. *)
Theorem write_failure_keeps_earlier_files w m1 m2 :
  stored_mapping w first_path = Some m1 →
  stored_mapping w last_path = Some m2 →
  writable (output_dir // "first_names.pb") = true →
  writable (output_dir // "last_names.pb") = true →
  writable (output_dir // "combined_names.pb") = false →
  export_to_protobuf true base_path output_dir writable w
  = (Raise (PermissionError (output_dir // "combined_names.pb")),
     {| files :=
          <[output_dir // "last_names.pb" :=
              NameDataset_SerializeToString (convert_last m2)]>
            (<[output_dir // "first_names.pb" :=
                 NameDataset_SerializeToString (convert_first m1)]>
               (files w));
        stdout := stdout w ++
          [Text "Loading pickle files...";
           Loaded (length m1) "first names";
           Loaded (length m2) "last names";
           Text "Converting to protobuf format...";
           Text "Writing protobuf files..."];
        calls := calls w ++
          [OpenRead first_path; OpenRead last_path;
           OpenWrite (output_dir // "first_names.pb");
           OpenWrite (output_dir // "last_names.pb");
           OpenWrite (output_dir // "combined_names.pb")] |}).
Proof.
  intros H1 H2 Wf Wl Wc.
  unfold export_to_protobuf; cbn [negb].
  erewrite bind_Return; [|reflexivity].
  erewrite bind_Return; [|by apply load_names].
  do 2 (erewrite bind_Return; [|reflexivity]).
  erewrite bind_Return; [|by apply load_names].
  do 6 (erewrite bind_Return; [|reflexivity]).
  do 2 (erewrite bind_Return; [|by apply open_wb_returns]).
  erewrite bind_Raise; [|by apply open_wb_raises].
  unfold record_call, set_files; cbn [files stdout calls].
  by rewrite <- !app_assoc.
Qed.

(** X9: the same during compression.  When [last_names.pb.gz] cannot be
    opened for writing the run raises [PermissionError] for it; by then
    [first_names.pb] has been replaced by [first_names.pb.gz], while
    [last_names.pb] and [combined_names.pb] stay on disk uncompressed. *)
Theorem compress_failure_keeps_partial_output w m1 m2 :
  stored_mapping w first_path = Some m1 →
  stored_mapping w last_path = Some m2 →
  writable (output_dir // "first_names.pb") = true →
  writable (output_dir // "last_names.pb") = true →
  writable (output_dir // "combined_names.pb") = true →
  writable (output_dir // "first_names.pb.gz") = true →
  writable (output_dir // "last_names.pb.gz") = false →
  ∃ w',
    export_to_protobuf true base_path output_dir writable w
    = (Raise (PermissionError (output_dir // "last_names.pb.gz")), w') ∧
    files w' !! (output_dir // "first_names.pb.gz")
    = Some (gzip_compress (output_dir // "first_names.pb.gz")
              (NameDataset_SerializeToString (convert_first m1))) ∧
    files w' !! (output_dir // "first_names.pb") = None ∧
    files w' !! (output_dir // "last_names.pb")
    = Some (NameDataset_SerializeToString (convert_last m2)) ∧
    files w' !! (output_dir // "combined_names.pb")
    = Some (CombinedNameDataset_SerializeToString
              (mkCombined (convert_first m1) (convert_last m2))) ∧
    files w' !! (output_dir // "last_names.pb.gz")
    = files w !! (output_dir // "last_names.pb.gz").
Proof.
  intros H1 H2 Wf Wl Wc Wfz Wlz.
  unfold export_to_protobuf; cbn [negb].
  erewrite bind_Return; [|reflexivity].
  erewrite bind_Return; [|by apply load_names].
  do 2 (erewrite bind_Return; [|reflexivity]).
  erewrite bind_Return; [|by apply load_names].
  do 6 (erewrite bind_Return; [|reflexivity]).
  do 3 (erewrite bind_Return; [|by apply open_wb_returns]).
  erewrite bind_Return; [|reflexivity].
  cbn [for_each]. cbn [files stdout calls set_files record_call].
  rewrite bind_assoc_at.
  erewrite bind_Return; cycle 1.
  { apply (compress_and_write_world "first_names.pb"
             (NameDataset_SerializeToString (convert_first m1)));
      [|exact Wfz].
    cbn [files]. rewrite !lookup_insert_ne by path_neq.
    by rewrite lookup_insert_eq. }
  cbn [files stdout calls]. rewrite bind_assoc_at.
  match goal with
  | |- context [(compress_and_write _ _ _ ≫= _) ?w0] =>
      destruct (compress_and_write_raises output_dir writable
                  "last_names.pb"
                  (NameDataset_SerializeToString (convert_last m2)) w0)
        as (w' & Hrun & Hfiles); [| exact Wlz |]
  end.
  { cbn [files]. rewrite lookup_compressed_other by path_neq.
    rewrite lookup_insert_ne by path_neq. by rewrite lookup_insert_eq. }
  erewrite bind_Raise; [|exact Hrun].
  exists w'. split; [reflexivity|]. rewrite Hfiles; cbn [files].
  split; [apply (lookup_compressed_gz output_dir _ "first_names.pb")|].
  split; [apply lookup_compressed_src|].
  rewrite !lookup_compressed_other by path_neq.
  split; [|split].
  - rewrite lookup_insert_ne by path_neq. by rewrite lookup_insert_eq.
  - by rewrite lookup_insert_eq.
  - by rewrite !lookup_insert_ne by path_neq.
Qed.



End RunTraces.

(** ** The conversion of a mapping built from two parts *)

Section ConversionFacts.
Context {prob : Type}.

(** X12: entries are converted one by one: the dataset of a mapping that
    lists the items of [m1] and then those of [m2] is the dataset of [m1]
    followed by that of [m2], for both loops. *)
Theorem convert_app (m1 m2 : names_dict prob) :
  entries (convert_first (m1 ++ m2))
  = (entries (convert_first m1) ++ entries (convert_first m2))%list ∧
  entries (convert_last (m1 ++ m2))
  = (entries (convert_last m1) ++ entries (convert_last m2))%list.
Proof.
  rewrite !convert_first_project, ?convert_last_project.
  unfold project; simpl. by rewrite fmap_app.
Qed.

End ConversionFacts.

(** ** The additional properties on concrete worlds *)

Section ScenarioRuns.
Import Scenarios.




Lemma with_list_first_first :
  loaded with_list_first first_path = Some (Sized (prob := Z) 3 no_attribute).
Proof.
  unfold loaded, with_list_first; simpl.
  rewrite lookup_insert_eq; simpl. by rewrite loads_dumps.
Qed.

Lemma with_list_first_last :
  loaded with_list_first last_path = Some (NamesDict smith).
Proof.
  unfold loaded, with_list_first; simpl.
  rewrite lookup_insert_ne by (unfold first_path, last_path; path_neq).
  rewrite lookup_singleton_eq; simpl. by rewrite loads_dumps.
Qed.

Lemma with_number_first_first :
  loaded with_number_first first_path = Some (Unsized (prob := Z)).
Proof.
  unfold loaded, with_number_first; simpl.
  rewrite lookup_singleton_eq; simpl. by rewrite loads_dumps.
Qed.




(** A witness of X3: the run on [with_inputs]. *)
Lemma complete_run_transcript_witness :
  ∃ w',
    export_to_protobuf (prob := Z) true base_path output_dir writable
      with_inputs = (Return true, w') ∧
    ∃ raw1 raw2 raw3,
      files w' !! (output_dir // "first_names.pb.gz") = Some raw1 ∧
      files w' !! (output_dir // "last_names.pb.gz") = Some raw2 ∧
      files w' !! (output_dir // "combined_names.pb.gz") = Some raw3 ∧
      stdout w' =
        [Text "Loading pickle files...";
         Loaded 1 "first names";
         Loaded 1 "last names";
         Text "Converting to protobuf format...";
         Text "Writing protobuf files...";
         Text "Compressing files...";
         Text (newline +:+ "Generated files:");
         FileSize "first_names.pb.gz" (length raw1);
         FileSize "last_names.pb.gz" (length raw2);
         FileSize "combined_names.pb.gz" (length raw3);
         Text "Export complete!"].
Proof.
  destruct (export_complete base_path output_dir writable with_inputs
              alice smith with_inputs_first with_inputs_last all_writable)
    as (w' & Hrun & _).
  exists w'. split; [exact Hrun|].
  destruct (complete_run_transcript base_path output_dir writable
              true with_inputs w' Hrun)
    as (m1 & m2 & raw1 & raw2 & raw3 & H1 & H2 & Hf & Hl & Hc & Hout).
  exists raw1, raw2, raw3.
  assert (Some m1 = Some alice) as [= ->]
    by (rewrite <- H1; exact with_inputs_first).
  assert (Some m2 = Some smith) as [= ->]
    by (rewrite <- H2; exact with_inputs_last).
  by repeat split.
Defined.

(** A witness of X4: the run on [with_inputs] issues seventeen calls. *)
Lemma complete_run_calls_witness :
  ∃ w',
    export_to_protobuf (prob := Z) true base_path output_dir writable
      with_inputs = (Return true, w') ∧
    length (calls w') = 17%nat.
Proof.
  destruct (export_complete base_path output_dir writable with_inputs
              alice smith with_inputs_first with_inputs_last all_writable)
    as (w' & Hrun & _).
  exists w'. split; [exact Hrun|].
  by rewrite (complete_run_calls base_path output_dir writable
                true with_inputs w' Hrun).
Defined.

(** A witness of X5: [first_names.pb] after the run on [with_inputs]. *)
Lemma complete_run_removes_uncompressed_witness :
  ∃ w',
    export_to_protobuf (prob := Z) true base_path output_dir writable
      with_inputs = (Return true, w') ∧
    files w' !! (output_dir // "first_names.pb") = None.
Proof.
  destruct (export_complete base_path output_dir writable with_inputs
              alice smith with_inputs_first with_inputs_last all_writable)
    as (w' & Hrun & _).
  exists w'. split; [exact Hrun|].
  apply (complete_run_removes_uncompressed base_path output_dir writable
           true with_inputs w' "first_names.pb" Hrun).
  repeat constructor.
Defined.



(** A witness of X13: the first input is a pickled list of three. *)
Lemma conversion_failure_stops_witness :
  export_to_protobuf (prob := Z) true base_path output_dir writable
    with_list_first
  = (Raise AttributeError,
     {| files := files with_list_first;
        stdout := [Text "Loading pickle files...";
                   Loaded 3 "first names";
                   Loaded 1 "last names";
                   Text "Converting to protobuf format..."];
        calls := [OpenRead first_path; OpenRead last_path] |}).
Proof.
  destruct (conversion_failure_stops base_path output_dir writable
              with_list_first (Sized 3 no_attribute) (NamesDict smith) 3 1
              with_list_first_first with_list_first_last eq_refl eq_refl
              (or_introl eq_refl)) as (e & Hrun & _ & Hfirst & _).
  rewrite Hrun. by rewrite (Hfirst no_attribute eq_refl).
Defined.

(** A witness of X14: the first input is a pickled number. *)
Lemma unsized_first_input_stops_witness :
  export_to_protobuf (prob := Z) true base_path output_dir writable
    with_number_first
  = (Raise TypeError,
     {| files := files with_number_first;
        stdout := [Text "Loading pickle files..."];
        calls := [OpenRead first_path] |}).
Proof.
  exact (unsized_first_input_stops base_path output_dir writable
           with_number_first Unsized with_number_first_first eq_refl).
Defined.

(** A witness of X8: [combined_names.pb] cannot be written. *)
Lemma write_failure_keeps_earlier_files_witness :
  ∃ w',
    export_to_protobuf (prob := Z) true base_path output_dir
      (all_but (output_dir // "combined_names.pb")) with_inputs
    = (Raise (PermissionError (output_dir // "combined_names.pb")), w') ∧
    files w' !! (output_dir // "first_names.pb")
    = Some (NameDataset_SerializeToString (convert_first alice)).
Proof.
  eexists. split.
  - exact (write_failure_keeps_earlier_files base_path output_dir
             (all_but (output_dir // "combined_names.pb")) with_inputs
             alice smith with_inputs_first with_inputs_last
             eq_refl eq_refl eq_refl).
  - cbn [files]. rewrite lookup_insert_ne by path_neq.
    by rewrite lookup_insert_eq.
Defined.

(** A witness of X9: [last_names.pb.gz] cannot be written. *)
Lemma compress_failure_keeps_partial_output_witness :
  ∃ w',
    export_to_protobuf (prob := Z) true base_path output_dir
      (all_but (output_dir // "last_names.pb.gz")) with_inputs
    = (Raise (PermissionError (output_dir // "last_names.pb.gz")), w') ∧
    files w' !! (output_dir // "first_names.pb") = None ∧
    files w' !! (output_dir // "last_names.pb")
    = Some (NameDataset_SerializeToString (convert_last smith)).
Proof.
  destruct (compress_failure_keeps_partial_output base_path output_dir
              (all_but (output_dir // "last_names.pb.gz")) with_inputs
              alice smith with_inputs_first with_inputs_last
              eq_refl eq_refl eq_refl eq_refl eq_refl)
    as (w' & Hrun & _ & Hf & Hl & _).
  by exists w'.
Defined.


End ScenarioRuns.
